(** * Hallersolutions benchmark API ([server.py]): a shallow embedding

    The server loads one benchmark table at start-up ([load_benchmark],
    bound to the module global [DF]) and answers [POST /berakna] by
    filtering that table, taking per-column medians and applying the
    potential model [estimate_potential_frictionless].

    Python floats are IEEE 754 binary64 numbers: they are modelled by
    Rocq's primitive [float], whose operations are specified by
    [SpecFloat] through the axioms of [FloatAxioms].  Python strings are
    modelled by [string], read as sequences of code points below 256. *)

From Stdlib Require Import ZArith Floats String Ascii List Lia Permutation Sorted.
From stdpp Require Import gmap strings list pretty.

Local Open Scope Z_scope.
Set Warnings "-inexact-float".

(** ** Python values, exceptions and builtins *)

(** The exception classes that the modelled code raises. *)
Inductive exn : Type :=
  | FileNotFoundError (msg : string)
  | ValueError (msg : string)
  | TypeError (msg : string)
  | OverflowError (msg : string).

(** What evaluating a Python expression or call ends in. *)
Inductive outcome (A : Type) : Type :=
  | Return (a : A)
  | Raise (e : exn).
Arguments Return {A} a.
Arguments Raise {A} e.

Definition obind {A C : Type} (o : outcome A) (k : A -> outcome C) : outcome C :=
  match o with
  | Return a => k a
  | Raise e => Raise e
  end.

Notation "'let?' x := o 'in' k" := (obind o (fun x => k))
  (at level 10, x name, o at level 200, k at level 200, only parsing).

(** The values a decoded JSON body or a data-frame cell can hold.  An
    array or an object is only ever passed to [str()] and [float()], so
    it is carried by its [str()] text. *)
Inductive pyval : Type :=
  | PNone
  | PBool (b : bool)
  | PInt (z : Z)
  | PFloat (f : float)
  | PStr (s : string)
  | PObj (text : string).

(** Library functions whose algorithms live outside the repository. *)
Class Builtins : Type := {
  (** [float(s)] for a [str]; [None] stands for its [ValueError]. *)
  float_of_str : string -> option float;
  (** [str(x)] for a [float]. *)
  str_of_float : float -> string;
  (** [repr(s)] for a [str], as an f-string renders a list element. *)
  repr_of_str : string -> string;
  (** [pd.to_numeric(..., errors="coerce")] on one cell; null is NaN. *)
  to_numeric : pyval -> float
}.

(** [min(a, b)] and [max(a, b)] of two floats: the first argument is kept
    unless the second is strictly smaller (resp. greater). *)
Definition py_min (a b : float) : float := if (b <? a)%float then b else a.
Definition py_max (a b : float) : float := if (a <? b)%float then b else a.

(** [n / d] rounded to the nearest integer, ties to the even one
    ([0 <= n], [0 < d]). *)
Definition div_half_even (n d : Z) : Z :=
  let q := n / d in
  match (2 * (n mod d)) ?= d with
  | Lt => q
  | Gt => q + 1
  | Eq => if Z.even q then q else q + 1
  end.

(** [m * 2^e * k] rounded to the nearest integer, ties to even. *)
Definition scaled_half_even (m : positive) (e : Z) (k : Z) : Z :=
  if 0 <=? e then Z.pos m * 2 ^ e * k
  else div_half_even (Z.pos m * k) (2 ^ (- e)).

(** [round(x)] of a float: an [int], or the exception of a non-finite
    argument. *)
Definition py_round (x : float) : outcome Z :=
  match Prim2SF x with
  | S754_nan => Raise (ValueError "cannot convert float NaN to integer")
  | S754_infinity _ => Raise (OverflowError "cannot convert float infinity to integer")
  | S754_zero _ => Return 0
  | S754_finite s m e => Return (cond_Zopp s (scaled_half_even m e 1))
  end.

(** [round(x, 1)] of a float: the exact value of [x] is rounded to one
    decimal, ties to even, and that decimal is converted back to the
    nearest float; non-finite arguments round to themselves. *)
Definition py_round1 (x : float) : float :=
  match Prim2SF x with
  | S754_finite s m e =>
      match scaled_half_even m e 10 with
      | Z.pos n =>
          SF2Prim (SFdiv prec emax (S754_finite s n 0) (S754_finite false 10 0))
      | _ => SF2Prim (S754_zero s)
      end
  | _ => x
  end.

(** [float(z)] of an [int]: the nearest float, or [None] for the
    [OverflowError] of an integer too large for one. *)
Definition float_of_int (z : Z) : option float :=
  match binary_normalize prec emax z 0 false with
  | S754_infinity _ => None
  | sf => Some (SF2Prim sf)
  end.

(** [str.isspace] on one code point below 256. *)
Definition is_space (c : ascii) : bool :=
  let n := nat_of_ascii c in
  ((9 <=? n)%nat && (n <=? 13)%nat) || ((28 <=? n)%nat && (n <=? 32)%nat)
  || (n =? 133)%nat || (n =? 160)%nat.

Fixpoint lstrip (s : string) : string :=
  match s with
  | EmptyString => EmptyString
  | String c s' => if is_space c then lstrip s' else s
  end.

Fixpoint rstrip (s : string) : string :=
  match s with
  | EmptyString => EmptyString
  | String c s' =>
      match rstrip s' with
      | EmptyString => if is_space c then EmptyString else String c EmptyString
      | t => String c t
      end
  end.

(** [s.strip()] *)
Definition strip (s : string) : string := rstrip (lstrip s).

Section WithBuiltins.
Context {B : Builtins}.

(** [str(v)] *)
Definition py_str (v : pyval) : string :=
  match v with
  | PNone => "None"
  | PBool true => "True"
  | PBool false => "False"
  | PInt z => pretty z
  | PFloat f => str_of_float f
  | PStr s => s
  | PObj text => text
  end.

(** [float(v)]; [None] stands for the exception it raises. *)
Definition py_float (v : pyval) : option float :=
  match v with
  | PNone => None
  | PBool true => Some 1%float
  | PBool false => Some 0%float
  | PInt z => float_of_int z
  | PFloat f => Some f
  | PStr s => float_of_str s
  | PObj _ => None
  end.

(** [str(l)] of a list of strings, as [f"{l}"] renders it. *)
Definition py_str_list (l : list string) : string :=
  "[" ++ String.concat ", " (map repr_of_str l) ++ "]".

(** ** Data frames *)

(** A frame as [pd.read_parquet] / [pd.read_csv] returns it: column
    labels in order and, for every row, one cell per column.  The readers
    return distinct labels ([read_csv] renames a repeated one). *)
Record frame : Type := {
  columns : list string;
  rows : list (list pyval)
}.

(** The cell of row [r] under the first column labelled [c]. *)
Fixpoint cell (cols : list string) (r : list pyval) (c : string) : pyval :=
  match cols, r with
  | k :: cols', v :: r' => if String.eqb k c then v else cell cols' r' c
  | _, _ => PFloat nan
  end.

(** [df.rename(columns=m)] *)
Definition rename (m : gmap string string) (df : frame) : frame :=
  {| columns := map (fun c => default c (m !! c)) (columns df);
     rows := rows df |}.

(** [df[new] = df[old]] when [new] is not yet a column. *)
Definition add_column (new old : string) (df : frame) : frame :=
  {| columns := columns df ++ [new];
     rows := map (fun r => r ++ [cell (columns df) r old]) (rows df) |}.

(** [Series.replace(m)] on one string *)
Definition replace (m : gmap string string) (s : string) : string :=
  default s (m !! s).

(** One row of the table that [load_benchmark] returns: the three key
    columns are strings, the five numeric columns are floats with NaN for
    null.  Columns that the server never reads are not kept. *)
Record row : Type := {
  col_year : string;
  col_sni_3 : string;
  col_size_class : string;
  col_antal_foretag : float;
  col_rorelsemarginal_pct : float;
  col_nettomarginal_pct : float;
  col_personalkostnad_netto_pct : float;
  col_personalkostnad_per_anst_tkr : float
}.

Definition DataFrame : Type := list row.

(** Insertion into a list sorted by [<=]. *)
Fixpoint insert_sorted (x : float) (l : list float) : list float :=
  match l with
  | [] => [x]
  | y :: l' => if (x <=? y)%float then x :: l else y :: insert_sorted x l'
  end.

Definition sort (l : list float) : list float := foldr insert_sorted [] l.

(** The non-null values of a column *)
Definition dropna (l : list float) : list float :=
  List.filter (fun x => negb (is_nan x)) l.

(** [Series.median()] (nulls skipped): the middle value of the sorted
    non-null values, the mean of the two middle values for an even count,
    NaN when there is none.  Values that compare equal are taken in the
    order of the rows, which only shows in the sign of a zero. *)
Definition median (l : list float) : float :=
  let xs := sort (dropna l) in
  let n := length xs in
  if (n =? 0)%nat then nan
  else if Nat.odd n then nth (n / 2) xs nan
  else ((nth (n / 2 - 1) xs nan + nth (n / 2) xs nan) / 2)%float.

(** ** [load_benchmark] *)

Definition rename_map : gmap string string :=
  {[ "0000028K" := "antal_foretag";
     "0000032G" := "rorelsemarginal_pct";
     "0000032H" := "nettomarginal_pct";
     "0000033Z" := "personalkostnad_netto_pct";
     "00000355" := "personalkostnad_per_anst_tkr" ]}.

Definition required : list string :=
  [ "year"; "sni_3"; "size_class";
    "antal_foretag"; "rorelsemarginal_pct"; "nettomarginal_pct";
    "personalkostnad_netto_pct"; "personalkostnad_per_anst_tkr" ].

(** The harmonisation fallbacks (lines 47 to 50). *)
Definition harmonize (df : frame) : frame :=
  let df :=
    if bool_decide (("size_class" ∉ columns df) ∧ ("Storleksklass" ∈ columns df))
    then add_column "size_class" "Storleksklass" df else df in
  if bool_decide (("year" ∉ columns df) ∧ ("Tid" ∈ columns df))
  then add_column "year" "Tid" df else df.

(** [missing = [c for c in required if c not in df.columns]] *)
Definition missing_columns (df : frame) : list string :=
  List.filter (fun c => bool_decide (c ∉ columns df)) required.

Definition numeric : list string :=
  [ "antal_foretag"; "rorelsemarginal_pct"; "nettomarginal_pct";
    "personalkostnad_netto_pct"; "personalkostnad_per_anst_tkr" ].

(** A numeric label that two columns carry, as happens when a file has a
    column under its code and another under the name the code is renamed
    to: [df[c]] is then a frame, which [pd.to_numeric] rejects. *)
Definition repeated_numeric (df : frame) : bool :=
  existsb (fun c => (1 <? count_occ string_dec (columns df) c)%nat) numeric.

(** The type normalisation (lines 63 to 68), row by row. *)
Definition normalize (df : frame) : DataFrame :=
  map (fun r =>
         let at_ := cell (columns df) r in
         {| col_year := py_str (at_ "year");
            col_sni_3 := py_str (at_ "sni_3");
            col_size_class := replace {[ "001" := "0" ]} (py_str (at_ "size_class"));
            col_antal_foretag := to_numeric (at_ "antal_foretag");
            col_rorelsemarginal_pct := to_numeric (at_ "rorelsemarginal_pct");
            col_nettomarginal_pct := to_numeric (at_ "nettomarginal_pct");
            col_personalkostnad_netto_pct := to_numeric (at_ "personalkostnad_netto_pct");
            col_personalkostnad_per_anst_tkr :=
              to_numeric (at_ "personalkostnad_per_anst_tkr") |})
      (rows df).

(** [load_benchmark] once the file has been read (lines 36 to 70). *)
Definition load_frame (df : frame) : outcome DataFrame :=
  let df := harmonize (rename rename_map df) in
  let missing := missing_columns df in
  match missing with
  | [] =>
      if repeated_numeric df
      then Raise (TypeError "arg must be a list, tuple, 1-d array, or Series")
      else Return (normalize df)
  | _ :: _ =>
      Raise (ValueError ("Saknar kolumner: " ++ py_str_list missing
                         ++ ". Har: " ++ py_str_list (columns df)))
  end.

Definition no_file : string :=
  "Hittar ingen benchmark-fil (benchmark_master_clean.parquet / "
  ++ "benchmark_master_clean.csv / benchmark_master.csv) "
  ++ "i samma mapp som server.py".

(** [load_benchmark()].  The working directory is a finite map from the
    names of the files that exist to the frames that reading them gives. *)
Definition load_benchmark (fs : gmap string frame) : outcome DataFrame :=
  match fs !! "benchmark_master_clean.parquet" with
  | Some df => load_frame df
  | None =>
      match fs !! "benchmark_master_clean.csv" with
      | Some df => load_frame df
      | None =>
          match fs !! "benchmark_master.csv" with
          | Some df => load_frame df
          | None => Raise (FileNotFoundError no_file)
          end
      end
  end.

(** ** The process state and the request monad *)

(** The module global [DF] and the frames that requests have created. *)
Record store : Type := {
  DF : DataFrame;
  temps : list DataFrame
}.

(** A call runs from a store to an outcome and a store. *)
Definition M (A : Type) : Type := store -> outcome A * store.

Definition ret {A : Type} (a : A) : M A := fun st => (Return a, st).

Definition bind {A C : Type} (m : M A) (k : A -> M C) : M C :=
  fun st =>
    match m st with
    | (Return a, st') => k a st'
    | (Raise e, st') => (Raise e, st')
    end.

Notation "'let!' x := m 'in' k" := (bind m (fun x => k))
  (at level 10, x name, m at level 200, k at level 200, only parsing).

(** An expression that only computes. *)
Definition eval {A : Type} (o : outcome A) : M A := fun st => (o, st).

(** Reading the global [DF]. *)
Definition read_DF : M DataFrame := fun st => (Return (DF st), st).

(** A new frame object: boolean indexing and [.copy()] both make one. *)
Definition new_frame (d : DataFrame) : M DataFrame :=
  fun st => (Return d, {| DF := DF st; temps := temps st ++ [d] |}).

(** [DF = load_benchmark()]: the store in which requests are served. *)
Definition startup (fs : gmap string frame) : outcome store :=
  match load_benchmark fs with
  | Return df => Return {| DF := df; temps := [] |}
  | Raise e => Raise e
  end.

(** ** The potential model *)

(** A dict with the keys ["low"], ["mid"] and ["high"]. *)
Record tiers : Type := { low : float; mid : float; high : float }.

Definition tiers_map (f : float -> float) (t : tiers) : tiers :=
  {| low := f (low t); mid := f (mid t); high := f (high t) |}.

Definition estimate_potential_frictionless (revenue_sek bench_op_margin_pct : float)
  : tiers * tiers :=
  let base := py_max 0.5 (py_min 6.0 (bench_op_margin_pct * 0.30)) in
  let gaps := {| low := base * 0.75; mid := base; high := base * 1.5 |} in
  let pot := tiers_map (fun v => py_max 0.0 (revenue_sek * (v / 100.0))) gaps in
  (pot, gaps).

Definition to_num (x : pyval) : option float :=
  match x with
  | PNone => None
  | _ =>
      match py_float x with
      | Some x => if is_nan x then None else Some x
      | None => None
      end
  end.

(** ** [POST /berakna] *)

(** The success dict. *)
Record result : Type := {
  antal_foretag : option Z;
  rorelsemarginal_pct : float;
  nettomarginal_pct : float;
  personalkostnad_netto_pct : float;
  personalkostnad_per_anst_tkr : option Z;
  median_ebit_kr : Z;
  median_personal_kr : Z;
  gap_low_pp : float;
  gap_high_pp : float;
  potential_low_kr : Z;
  potential_mid_kr : Z;
  potential_high_kr : Z
}.

(** What [berakna] returns: the success dict or [{"error": message}]. *)
Inductive response : Type :=
  | Success (r : result)
  | Error (error : string).

(** [DF[(DF["year"] == year) & (DF["sni_3"] == sni_3) & (DF["size_class"] == size_class)]] *)
Definition select (df : DataFrame) (year sni_3 size_class : string) : DataFrame :=
  List.filter
    (fun r => String.eqb (col_year r) year && String.eqb (col_sni_3 r) sni_3
              && String.eqb (col_size_class r) size_class)
    df.

(** [int(round(x)) if x is not None else None] *)
Definition round_opt (x : option float) : outcome (option Z) :=
  match x with
  | None => Return None
  | Some x => let? z := py_round x in Return (Some z)
  end.

(** The derived amounts and the returned dict (lines 142 to 164); the
    values of the dict display are evaluated in the order written. *)
Definition report (revenue : float) (antal : option float) (opm npm staff_pct : float)
    (staff_per : option float) : outcome response :=
  let median_ebit_kr := (revenue * (opm / 100.0))%float in
  let median_personal_kr := (revenue * (staff_pct / 100.0))%float in
  let '(pot, gaps) := estimate_potential_frictionless revenue opm in
  let? antal' := round_opt antal in
  let? staff_per' := round_opt staff_per in
  let? ebit := py_round median_ebit_kr in
  let? personal := py_round median_personal_kr in
  let? pot_low := py_round (low pot) in
  let? pot_mid := py_round (mid pot) in
  let? pot_high := py_round (high pot) in
  Return (Success
            {| antal_foretag := antal';
               rorelsemarginal_pct := py_round1 opm;
               nettomarginal_pct := py_round1 npm;
               personalkostnad_netto_pct := py_round1 staff_pct;
               personalkostnad_per_anst_tkr := staff_per';
               median_ebit_kr := ebit;
               median_personal_kr := personal;
               gap_low_pp := py_round1 (low gaps);
               gap_high_pp := py_round1 (high gaps);
               potential_low_kr := pot_low;
               potential_mid_kr := pot_mid;
               potential_high_kr := pot_high |}).

Definition incomplete : string := "Benchmark data incomplete for selected segment.".

(** [f"No benchmark for year={year}, sni_3={sni_3}, size_class={size_class}"] *)
Definition no_benchmark (year sni_3 size_class : string) : string :=
  "No benchmark for year=" ++ year ++ ", sni_3=" ++ sni_3
  ++ ", size_class=" ++ size_class.

Definition missing_fields : string :=
  "Missing required fields: sni_3, size_class, revenue (and optional year)".

Definition berakna (payload : gmap string pyval) : M response :=
  let year := py_str (default (PStr "2024") (payload !! "year")) in
  let sni_3 := strip (py_str (default (PStr "") (payload !! "sni_3"))) in
  let size_class := strip (py_str (default (PStr "") (payload !! "size_class"))) in
  match to_num (default PNone (payload !! "revenue")) with
  | None => ret (Error missing_fields)
  | Some revenue =>
      if String.eqb sni_3 "" || String.eqb size_class "" then ret (Error missing_fields)
      else
        let! df := read_DF in
        let! selected := new_frame (select df year sni_3 size_class) in
        let! sub := new_frame selected in
        match sub with
        | [] => ret (Error (no_benchmark year sni_3 size_class))
        | _ :: _ =>
            let bench := fun col => PFloat (median (map col sub)) in
            let antal := to_num (bench col_antal_foretag) in
            let opm := to_num (bench col_rorelsemarginal_pct) in
            let npm := to_num (bench col_nettomarginal_pct) in
            let staff_pct := to_num (bench col_personalkostnad_netto_pct) in
            let staff_per := to_num (bench col_personalkostnad_per_anst_tkr) in
            match opm, npm, staff_pct with
            | Some opm, Some npm, Some staff_pct =>
                eval (report revenue antal opm npm staff_pct staff_per)
            | _, _, _ => ret (Error incomplete)
            end
        end
  end.

(** The request's reading of its payload (lines 113 to 116). *)
Definition year_of (payload : gmap string pyval) : string :=
  py_str (default (PStr "2024") (payload !! "year")).
Definition sni_3_of (payload : gmap string pyval) : string :=
  strip (py_str (default (PStr "") (payload !! "sni_3"))).
Definition size_class_of (payload : gmap string pyval) : string :=
  strip (py_str (default (PStr "") (payload !! "size_class"))).
Definition revenue_of (payload : gmap string pyval) : option float :=
  to_num (default PNone (payload !! "revenue")).

(** The rows that the request selects from the table. *)
Definition sub_of (payload : gmap string pyval) (df : DataFrame) : DataFrame :=
  select df (year_of payload) (sni_3_of payload) (size_class_of payload).

(** What a request that passes validation leaves in the store. *)
Definition after_lookup (payload : gmap string pyval) (st : store) : store :=
  {| DF := DF st;
     temps := (temps st ++ [sub_of payload (DF st)]) ++ [sub_of payload (DF st)] |}.

(** The rows of a raw frame that a query for size class "0" gets. *)
Definition raw_matches (cols : list string) (year sni_3 : string) (r : list pyval) : bool :=
  String.eqb (py_str (cell cols r "year")) year
  && String.eqb (py_str (cell cols r "sni_3")) sni_3
  && (String.eqb (py_str (cell cols r "size_class")) "0"
      || String.eqb (py_str (cell cols r "size_class")) "001").

End WithBuiltins.

(** ** The standard median, in the spec's words *)

Definition float_le (x y : float) : Prop := (x <=? y)%float = true.

(** [v] is the standard median of the non-null values of [l]: the middle
    value of their sorted arrangement for an odd count, the mean of the
    two middle values for an even count, null when there is none. *)
Definition standard_median (l : list float) (v : float) : Prop :=
  exists xs,
    Permutation xs (dropna l) /\ Sorted float_le xs /\
    match length xs with
    | O => is_nan v = true
    | n =>
        if Nat.odd n then v = nth (n / 2) xs nan
        else v = ((nth (n / 2 - 1) xs nan + nth (n / 2) xs nan) / 2)%float
    end.

(** ** Signs of floats *)

(** The floats that are not above zero (zeros, negative numbers, minus
    infinity, NaN), and those that are not below it. *)
Definition SF_not_positive (x : spec_float) : bool :=
  match x with
  | S754_zero _ | S754_nan => true
  | S754_infinity s | S754_finite s _ _ => s
  end.

Definition SF_not_negative (x : spec_float) : bool :=
  match x with
  | S754_zero _ | S754_nan => true
  | S754_infinity s | S754_finite s _ _ => negb s
  end.

(** ** A benchmark table and requests to run *)

(** The row of the end-to-end example, with any values in its two
    optional columns. *)
Definition example_row_with (antal staff_per : float) : row :=
  {| col_year := "2024"; col_sni_3 := "432"; col_size_class := "5-9";
     col_antal_foretag := antal;
     col_rorelsemarginal_pct := 10.0;
     col_nettomarginal_pct := 5.0;
     col_personalkostnad_netto_pct := 20.0;
     col_personalkostnad_per_anst_tkr := staff_per |}.

(** The one-row table of the end-to-end example; the two optional
    columns are null. *)
Definition example_store : store :=
  {| DF := [example_row_with nan nan]; temps := [] |}.

(** [{"year": "2024", "sni_3": "432", "size_class": "5-9", "revenue": v}] *)
Definition example_payload (revenue : pyval) : gmap string pyval :=
  {[ "year" := PStr "2024"; "sni_3" := PStr "432"; "size_class" := PStr "5-9";
     "revenue" := revenue ]}.

(** Two rows of one segment whose net margins are null. *)
Definition incomplete_store : store :=
  {| DF := [ {| col_year := "2024"; col_sni_3 := "432"; col_size_class := "5-9";
                col_antal_foretag := 7.0;
                col_rorelsemarginal_pct := 4.0;
                col_nettomarginal_pct := nan;
                col_personalkostnad_netto_pct := 20.0;
                col_personalkostnad_per_anst_tkr := nan |};
             {| col_year := "2024"; col_sni_3 := "432"; col_size_class := "5-9";
                col_antal_foretag := 9.0;
                col_rorelsemarginal_pct := 6.0;
                col_nettomarginal_pct := nan;
                col_personalkostnad_netto_pct := 30.0;
                col_personalkostnad_per_anst_tkr := nan |} ];
     temps := [] |}.

(** A raw export with one row, whose size class is the raw label 001. *)
Definition example_frame : frame :=
  {| columns := [ "Tid"; "sni_3"; "Storleksklass"; "0000028K"; "0000032G";
                  "0000032H"; "0000033Z"; "00000355" ];
     rows := [ [ PInt 2024; PInt 432; PStr "001"; PInt 12; PFloat 10.0;
                 PFloat 5.0; PFloat 20.0; PStr ".." ] ] |}.

Definition example_files : gmap string frame :=
  {[ "benchmark_master.csv" := example_frame ]}.

(** The table that [load_benchmark] makes of [example_files]. *)
Definition example_table : DataFrame :=
  [ {| col_year := "2024"; col_sni_3 := "432"; col_size_class := "0";
       col_antal_foretag := 12.0;
       col_rorelsemarginal_pct := 10.0;
       col_nettomarginal_pct := 5.0;
       col_personalkostnad_netto_pct := 20.0;
       col_personalkostnad_per_anst_tkr := nan |} ].

(** [{"year": "2024", "sni_3": "432", "size_class": c, "revenue": 5000000}] *)
Definition example_query (size_class : string) : gmap string pyval :=
  {[ "year" := PStr "2024"; "sni_3" := PStr "432"; "size_class" := PStr size_class;
     "revenue" := PInt 5000000 ]}.

(** A row of another segment. *)
Definition other_row : row :=
  {| col_year := "2023"; col_sni_3 := "561"; col_size_class := "0";
     col_antal_foretag := 40.0;
     col_rorelsemarginal_pct := 3.0;
     col_nettomarginal_pct := 2.0;
     col_personalkostnad_netto_pct := 35.0;
     col_personalkostnad_per_anst_tkr := 410.0 |}.

(** A request that leaves the year out and sends the industry code as a
    number with the size class between spaces. *)
Definition loose_payload : gmap string pyval :=
  {[ "sni_3" := PInt 432; "size_class" := PStr " 5-9 "; "revenue" := PInt 5000000 ]}.

(** A clean file with one row, and the same file with the operating
    margin under its code as well. *)
Definition clean_frame : frame :=
  {| columns := required;
     rows := [ [ PInt 2024; PInt 432; PStr "5-9"; PInt 12; PFloat 10.0;
                 PFloat 5.0; PFloat 20.0; PStr ".." ] ] |}.

Definition mixed_frame : frame :=
  {| columns := required ++ ["0000032G"];
     rows := [ [ PInt 2024; PInt 432; PStr "5-9"; PInt 12; PFloat 10.0;
                 PFloat 5.0; PFloat 20.0; PStr ".."; PFloat 10.0 ] ] |}.

(** What the end-to-end request returns on [example_store]. *)
Definition example_result : result :=
  {| antal_foretag := None;
     rorelsemarginal_pct := 10.0;
     nettomarginal_pct := 5.0;
     personalkostnad_netto_pct := 20.0;
     personalkostnad_per_anst_tkr := None;
     median_ebit_kr := 500000;
     median_personal_kr := 1000000;
     gap_low_pp := 2.2;
     gap_high_pp := 4.5;
     potential_low_kr := 112500;
     potential_mid_kr := 150000;
     potential_high_kr := 225000 |}.

(** ** Reference builtins

    Executable readings of the four library functions, used to run the
    model on concrete requests.  Strings are over code points below 256,
    so digits and letters are the ASCII ones. *)
Module Ref.

Definition digit_of (c : ascii) : option Z :=
  let n := nat_of_ascii c in
  if (48 <=? n)%nat && (n <=? 57)%nat then Some (Z.of_nat (n - 48)) else None.

(** digitpart ::= digit (["_"] digit)* ; the value read, the number of
    digits and the rest of the input. *)
Fixpoint digitpart (acc cnt : Z) (l : list ascii) : Z * Z * list ascii :=
  match l with
  | c :: l' =>
      match digit_of c with
      | Some d => digitpart (10 * acc + d) (cnt + 1) l'
      | None =>
          if Ascii.eqb c "_" && (0 <? cnt) then
            match l' with
            | c' :: _ =>
                match digit_of c' with
                | Some _ => digitpart acc cnt l'
                | None => (acc, cnt, l)
                end
            | [] => (acc, cnt, l)
            end
          else (acc, cnt, l)
      end
  | [] => (acc, cnt, l)
  end.

Definition is_e (c : ascii) : bool := Ascii.eqb c "e" || Ascii.eqb c "E".

(** A decimal literal as mantissa and power of ten. *)
Definition parse_decimal (l : list ascii) : option (Z * Z) :=
  let '(ip, icnt, l1) := digitpart 0 0 l in
  let '(fp, fcnt, l2) :=
    match l1 with
    | c :: l1' => if Ascii.eqb c "." then digitpart 0 0 l1' else (0, 0, l1)
    | [] => (0, 0, l1)
    end in
  if (icnt =? 0) && (fcnt =? 0) then None
  else
    let mant := ip * 10 ^ fcnt + fp in
    match l2 with
    | [] => Some (mant, - fcnt)
    | c :: l3 =>
        if is_e c then
          let '(sgn, l4) :=
            match l3 with
            | c' :: t =>
                if Ascii.eqb c' "+" then (1, t)
                else if Ascii.eqb c' "-" then (-1, t) else (1, l3)
            | [] => (1, l3)
            end in
          let '(ex, ecnt, l5) := digitpart 0 0 l4 in
          if ecnt =? 0 then None
          else match l5 with [] => Some (mant, sgn * ex - fcnt) | _ :: _ => None end
        else None
    end.

(** The float nearest to [(-1)^s * mant * 10^e10]. *)
Definition decimal_to_SF (s : bool) (mant e10 : Z) : spec_float :=
  match mant with
  | Z.pos m =>
      if 0 <=? e10 then binary_normalize prec emax (cond_Zopp s (Z.pos m * 10 ^ e10)) 0 false
      else SFdiv prec emax (S754_finite s m 0)
                 (S754_finite false (Z.to_pos (10 ^ (- e10))) 0)
  | _ => S754_zero s
  end.

Definition to_lower (c : ascii) : ascii :=
  let n := nat_of_ascii c in
  if (65 <=? n)%nat && (n <=? 90)%nat then ascii_of_nat (n + 32) else c.

Definition read_float (s : string) : option float :=
  let l := list_ascii_of_string (strip s) in
  let '(sgn, l) :=
    match l with
    | c :: t =>
        if Ascii.eqb c "+" then (false, t)
        else if Ascii.eqb c "-" then (true, t) else (false, l)
    | [] => (false, l)
    end in
  let word := string_of_list_ascii (map to_lower l) in
  if String.eqb word "inf" || String.eqb word "infinity"
  then Some (if sgn then neg_infinity else infinity)
  else if String.eqb word "nan" then Some nan
  else
    match parse_decimal l with
    | Some (m, e) => Some (SF2Prim (decimal_to_SF sgn m e))
    | None => None
    end.

(** [m * 2^e < 10^p] *)
Definition below_pow10 (m : positive) (e p : Z) : bool :=
  Z.pos m * 2 ^ Z.max e 0 * 10 ^ Z.max (- p) 0 <? 2 ^ Z.max (- e) 0 * 10 ^ Z.max p 0.

(** The least [p] with [m * 2^e < 10^p], searched upwards. *)
Fixpoint magnitude (fuel : nat) (m : positive) (e p : Z) : Z :=
  match fuel with
  | O => p
  | S fuel => if below_pow10 m e p then p else magnitude fuel m e (p + 1)
  end.

Definition SF_eqb (x y : spec_float) : bool :=
  match x, y with
  | S754_finite s1 m1 e1, S754_finite s2 m2 e2 =>
      Bool.eqb s1 s2 && Pos.eqb m1 m2 && (e1 =? e2)
  | _, _ => false
  end.

(** The shortest decimal [d * 10^q] that reads back as [m * 2^e], the
    nearest one first, with [k], [k + 1], ... significant digits. *)
Fixpoint shortest (fuel : nat) (m : positive) (e p k : Z) : Z * Z :=
  let q := p - k in
  let num := Z.pos m * 2 ^ Z.max e 0 * 10 ^ Z.max (- q) 0 in
  let den := 2 ^ Z.max (- e) 0 * 10 ^ Z.max q 0 in
  let near := div_half_even num den in
  let other := if near =? num / den then num / den + 1 else num / den in
  let back d := SF_eqb (decimal_to_SF false d q) (S754_finite false m e) in
  match fuel with
  | O => (near, q)
  | S fuel =>
      if back near then (near, q)
      else if back other then (other, q)
      else shortest fuel m e p (k + 1)
  end.

Fixpoint strip_zeros (fuel : nat) (d q : Z) : Z * Z :=
  match fuel with
  | O => (d, q)
  | S fuel => if (d mod 10 =? 0) && negb (d =? 0) then strip_zeros fuel (d / 10) (q + 1) else (d, q)
  end.

Definition zeros (n : Z) : string := string_of_list_ascii (repeat "0"%char (Z.to_nat n)).

(** The digits [d] with the decimal point [decpt] places after their
    start, as [repr] lays them out. *)
Definition layout (d q : Z) : string :=
  let ds := pretty d in
  let n := Z.of_nat (String.length ds) in
  let decpt := q + n in
  if (decpt <=? -4) || (16 <? decpt) then
    let x := decpt - 1 in
    let xs := pretty (Z.abs x) in
    String.substring 0 1 ds
    ++ (if 1 <? n then "." ++ String.substring 1 (String.length ds - 1) ds else "")
    ++ "e" ++ (if x <? 0 then "-" else "+")
    ++ (if (String.length xs <? 2)%nat then "0" else "") ++ xs
  else if decpt <=? 0 then "0." ++ zeros (- decpt) ++ ds
  else if n <=? decpt then ds ++ zeros (decpt - n) ++ ".0"
  else String.substring 0 (Z.to_nat decpt) ds ++ "."
       ++ String.substring (Z.to_nat decpt) (String.length ds - Z.to_nat decpt) ds.

Definition show_float (x : float) : string :=
  match Prim2SF x with
  | S754_nan => "nan"
  | S754_infinity s => if s then "-inf" else "inf"
  | S754_zero s => if s then "-0.0" else "0.0"
  | S754_finite s m e =>
      let p := magnitude 700 m e (-330) in
      let '(d, q) := shortest 16 m e p 1 in
      let '(d, q) := strip_zeros 20 d q in
      (if s then "-" else "") ++ layout d q
  end.

Definition hex_digit (n : nat) : ascii :=
  ascii_of_nat (if (n <? 10)%nat then 48 + n else 87 + n).

(** [repr] of one character inside the quotes [quote]. *)
Definition repr_char (quote c : ascii) : string :=
  let n := nat_of_ascii c in
  if Ascii.eqb c quote || Ascii.eqb c "\" then String "\" (String c "")
  else if (n =? 9)%nat then "\t"
  else if (n =? 10)%nat then "\n"
  else if (n =? 13)%nat then "\r"
  else if (n <? 32)%nat || ((127 <=? n)%nat && (n <=? 160)%nat) || (n =? 173)%nat
  then String "\" (String "x" (String (hex_digit (n / 16)) (String (hex_digit (n mod 16)) "")))
  else String c "".

Definition quote_str (s : string) : string :=
  let l := list_ascii_of_string s in
  let has c := existsb (Ascii.eqb c) l in
  let dquote := ascii_of_nat 34 in
  let quote := if has "'"%char && negb (has dquote) then dquote else "'"%char in
  String quote (String.concat "" (map (repr_char quote) l)) ++ String quote "".

Definition coerce_numeric (v : pyval) : float :=
  match v with
  | PFloat f => f
  | PInt z => default nan (float_of_int z)
  | PBool true => 1%float
  | PBool false => 0%float
  | PStr s => default nan (read_float s)
  | PNone | PObj _ => nan
  end.

Definition builtins : Builtins :=
  {| float_of_str := read_float;
     str_of_float := show_float;
     repr_of_str := quote_str;
     to_numeric := coerce_numeric |}.

End Ref.


(** * Properties *)

(** ** The order of floats *)

Lemma SFcompare_antisym x y c :
  SFcompare x y = Some c -> SFcompare y x = Some (CompOpp c).
Proof.
  destruct x as [sx|sx| |sx mx ex], y as [sy|sy| |sy my ey]; simpl;
    try discriminate; intros [= <-];
    try (destruct sx; reflexivity); try (destruct sy; reflexivity);
    try (destruct sx, sy; reflexivity).
  destruct sx, sy; try reflexivity.
  all: rewrite (Z.compare_antisym ex ey); destruct (ex ?= ey); simpl; try reflexivity;
    rewrite ?CompOpp_involutive; rewrite ?Pos.compare_cont_antisym; simpl; reflexivity.
Qed.

Lemma ltb_leb x y : (x <? y)%float = true -> (x <=? y)%float = true.
Proof.
  rewrite FloatAxioms.ltb_spec, FloatAxioms.leb_spec. unfold SFltb, SFleb.
  destruct (SFcompare _ _) as [[]|]; congruence.
Qed.

Lemma SFcompare_refl x : x <> S754_nan -> SFcompare x x = Some Eq.
Proof.
  destruct x as [s|s| |s m e]; simpl; try congruence; intros _.
  - destruct s; reflexivity.
  - rewrite Z.compare_refl. destruct s; rewrite ?Pos.compare_cont_refl; reflexivity.
Qed.

Lemma is_nan_spec x : is_nan x = true <-> Prim2SF x = S754_nan.
Proof.
  unfold is_nan. rewrite FloatAxioms.eqb_spec. unfold SFeqb. split.
  - destruct (Prim2SF x) eqn:E; try reflexivity; intros H; exfalso;
    rewrite SFcompare_refl in H by discriminate; discriminate.
  - intros ->. reflexivity.
Qed.

Lemma leb_not_ltb x y : (x <=? y)%float = true -> (y <? x)%float = false.
Proof.
  rewrite FloatAxioms.ltb_spec, FloatAxioms.leb_spec. unfold SFltb, SFleb.
  destruct (SFcompare (Prim2SF x) (Prim2SF y)) as [c|] eqn:E; [|discriminate].
  rewrite (SFcompare_antisym _ _ _ E). destruct c; simpl; congruence.
Qed.

Lemma SFcompare_Eq_finite x s m e :
  SFcompare x (S754_finite s m e) = Some Eq -> x = S754_finite s m e.
Proof.
  destruct x as [sx|sx| |sx mx ex]; simpl; try discriminate;
    try (destruct s; discriminate); try (destruct sx; discriminate).
  destruct sx, s; try discriminate;
    destruct (ex ?= e) eqn:Ee; try discriminate;
    apply Z.compare_eq in Ee; subst; intros [= H];
    destruct (Pos.compare_cont Eq mx m) eqn:Hm; try discriminate;
    apply (Pos.compare_eq mx m) in Hm; subst; reflexivity.
Qed.

Lemma leb_antisym_const x c s m e :
  Prim2SF c = S754_finite s m e ->
  (x <=? c)%float = true -> (x <? c)%float = false -> x = c.
Proof.
  intros Hc. rewrite FloatAxioms.ltb_spec, FloatAxioms.leb_spec. unfold SFltb, SFleb.
  destruct (SFcompare (Prim2SF x) (Prim2SF c)) as [[]|] eqn:E; try discriminate.
  intros _ _. rewrite Hc in E. apply SFcompare_Eq_finite in E.
  apply Prim2SF_inj. congruence.
Qed.

Lemma leb_sym_const x c s m e :
  Prim2SF c = S754_finite s m e ->
  (c <=? x)%float = true -> (c <? x)%float = false -> x = c.
Proof.
  intros Hc. rewrite FloatAxioms.ltb_spec, FloatAxioms.leb_spec. unfold SFltb, SFleb.
  destruct (SFcompare (Prim2SF c) (Prim2SF x)) as [[]|] eqn:E; try discriminate.
  intros _ _. apply SFcompare_antisym in E. simpl in E. rewrite Hc in E.
  apply SFcompare_Eq_finite in E. apply Prim2SF_inj. congruence.
Qed.

Lemma leb_half_ltb_six (y : float) : (y <=? 0.5)%float = true -> (y <? 6)%float = true.
Proof.
  intros H. rewrite FloatAxioms.leb_spec in H. rewrite FloatAxioms.ltb_spec.
  unfold SFltb, SFleb in *.
  replace (Prim2SF 0.5) with (S754_finite false 4503599627370496 (-53)) in H by (vm_compute; reflexivity).
  replace (Prim2SF 6) with (S754_finite false 6755399441055744 (-50)) by (vm_compute; reflexivity).
  destruct (Prim2SF y) as [s|s| |s m e]; cbn [SFcompare] in *.
  - reflexivity.
  - destruct s; [reflexivity | discriminate].
  - discriminate.
  - destruct s; [reflexivity|].
    destruct (Z.compare_spec e (-53)); destruct (Z.compare_spec e (-50)); try lia; congruence.
Qed.

(** ** Rounding of a product *)

Lemma iter_pos_nat {A} (f : A -> A) p x :
  SpecFloat.iter_pos f p x = Nat.iter (Pos.to_nat p) f x.
Proof.
  revert x. induction p as [p IH|p IH|]; intros x; cbn [SpecFloat.iter_pos].
  - rewrite !IH, Pos2Nat.inj_xI.
    replace (S (2 * Pos.to_nat p)) with (Pos.to_nat p + (Pos.to_nat p + 1))%nat by lia.
    rewrite !Nat.iter_add. reflexivity.
  - rewrite !IH, Pos2Nat.inj_xO.
    replace (2 * Pos.to_nat p)%nat with (Pos.to_nat p + Pos.to_nat p)%nat by lia.
    rewrite Nat.iter_add. reflexivity.
  - reflexivity.
Qed.

Lemma shr_1_m mrs : 0 <= shr_m mrs -> shr_m (shr_1 mrs) = Z.div2 (shr_m mrs).
Proof.
  destruct mrs as [m r s]. cbn [shr_m shr_1]. intros H.
  destruct m as [|[p|p|]|p]; try reflexivity; lia.
Qed.

Lemma shr_iter_m n mrs :
  0 <= shr_m mrs -> shr_m (Nat.iter n shr_1 mrs) = shr_m mrs / 2 ^ Z.of_nat n.
Proof.
  intros H. induction n as [|n IH].
  - change (2 ^ Z.of_nat 0) with 1. now rewrite Z.div_1_r.
  - rewrite Nat.iter_succ, shr_1_m.
    + rewrite IH, Z.div2_div, Z.div_div by lia.
      rewrite Nat2Z.inj_succ, Z.pow_succ_r by lia. f_equal. lia.
    + rewrite IH. apply Z.div_pos; lia.
Qed.

Lemma digits2_pos_bounds p :
  2 ^ (Z.pos (digits2_pos p) - 1) <= Z.pos p < 2 ^ Z.pos (digits2_pos p).
Proof.
  induction p as [p IH|p IH|]; cbn [digits2_pos].
  - rewrite Pos2Z.inj_succ. replace (Z.succ (Z.pos (digits2_pos p)) - 1) with (Z.succ (Z.pos (digits2_pos p) - 1)) by lia.
    rewrite !Z.pow_succ_r by lia. lia.
  - rewrite Pos2Z.inj_succ. replace (Z.succ (Z.pos (digits2_pos p)) - 1) with (Z.succ (Z.pos (digits2_pos p) - 1)) by lia.
    rewrite !Z.pow_succ_r by lia. lia.
  - cbn. lia.
Qed.

Lemma digits2_pos_unique p d :
  2 ^ (d - 1) <= Z.pos p < 2 ^ d -> Z.pos (digits2_pos p) = d.
Proof.
  intros [Hl Hu]. pose proof (digits2_pos_bounds p) as [Hl' Hu'].
  assert (0 < d).
  { destruct (Z_lt_le_dec 0 d) as [|Hd]; [assumption|].
    exfalso. destruct (Z.eq_dec d 0) as [->|]; [cbn in Hu; lia|].
    rewrite Z.pow_neg_r in Hu by lia. lia. }
  assert (d - 1 < Z.pos (digits2_pos p)).
  { apply (Z.pow_lt_mono_r_iff 2); lia. }
  assert (Z.pos (digits2_pos p) - 1 < d).
  { apply (Z.pow_lt_mono_r_iff 2); lia. }
  lia.
Qed.

Lemma shr_record_of_loc_m m l : shr_m (shr_record_of_loc m l) = m.
Proof. destruct l as [|[]]; reflexivity. Qed.

Lemma shr_fexp_normal (p : positive) (e : Z) (l : location) (d : Z) :
  2 ^ (d - 1) <= Z.pos p < 2 ^ d -> 53 <= d -> -1074 <= d + e - 53 ->
  exists mrs, shr_fexp prec emax (Z.pos p) e l = (mrs, e + (d - 53))
              /\ shr_m mrs = Z.pos p / 2 ^ (d - 53).
Proof.
  intros Hp Hd He.
  unfold shr_fexp. cbn [Zdigits2]. rewrite (digits2_pos_unique p d Hp).
  unfold fexp, SpecFloat.emin, prec, emax.
  rewrite Z.max_l by lia.
  replace (d + e - 53 - e) with (d - 53) by lia.
  destruct (d - 53) as [|n|n] eqn:Hn; try lia; cbn [shr].
  - eexists. split; [rewrite Z.add_0_r; reflexivity|].
    rewrite shr_record_of_loc_m. change (2 ^ 0) with 1. now rewrite Z.div_1_r.
  - eexists. split; [reflexivity|].
    rewrite iter_pos_nat, shr_iter_m, shr_record_of_loc_m, positive_nat_Z.
    + reflexivity.
    + rewrite shr_record_of_loc_m. lia.
Qed.

Lemma round_nearest_even_bounds m l :
  m <= round_nearest_even m l <= m + 1.
Proof.
  destruct l as [|[]]; cbn [round_nearest_even]; try lia.
  destruct (Z.even m); lia.
Qed.

Lemma binary_round_aux_normal (p : positive) (e d : Z) :
  2 ^ (d - 1) <= Z.pos p < 2 ^ d -> 53 < d ->
  -1074 <= d + e - 53 -> d + e - 53 < 971 ->
  exists r e',
    binary_round_aux prec emax false (Z.pos p) e loc_Exact = S754_finite false r e'
    /\ ((e' = e + (d - 53)
         /\ Z.pos p / 2 ^ (d - 53) <= Z.pos r <= Z.pos p / 2 ^ (d - 53) + 1
         /\ Z.pos r < 2 ^ 53)
        \/ (e' = e + (d - 53) + 1 /\ Z.pos r = 2 ^ 52
            /\ Z.pos p / 2 ^ (d - 53) + 1 = 2 ^ 53)).
Proof.
  intros Hp Hd Hlo Hhi.
  set (q := Z.pos p / 2 ^ (d - 53)).
  assert (Hq : 2 ^ 52 <= q < 2 ^ 53).
  { unfold q. replace (2 ^ (d - 1)) with (2 ^ 52 * 2 ^ (d - 53)) in Hp
      by (rewrite <- Z.pow_add_r by lia; f_equal; lia).
    replace (2 ^ d) with (2 ^ 53 * 2 ^ (d - 53)) in Hp
      by (rewrite <- Z.pow_add_r by lia; f_equal; lia).
    assert (0 < 2 ^ (d - 53)) by (apply Z.pow_pos_nonneg; lia).
    split.
    - apply Z.div_le_lower_bound; lia.
    - apply Z.div_lt_upper_bound; lia. }
  unfold binary_round_aux.
  destruct (shr_fexp_normal p e loc_Exact d Hp ltac:(lia) Hlo) as (mrs & -> & Hm).
  fold q in Hm. rewrite Hm.
  pose proof (round_nearest_even_bounds q (loc_of_shr_record mrs)) as Hr.
  set (r0 := round_nearest_even q (loc_of_shr_record mrs)) in *.
  destruct r0 as [|r|r] eqn:Er0; try lia.
  destruct (Z_lt_le_dec (Z.pos r) (2 ^ 53)) as [Hlt|Hge].
  - destruct (shr_fexp_normal r (e + (d - 53)) loc_Exact 53 ltac:(lia) ltac:(lia) ltac:(lia))
      as (mrs2 & -> & Hm2).
    change (2 ^ (53 - 53)) with 1 in Hm2. rewrite Z.div_1_r in Hm2. rewrite Hm2.
    replace (e + (d - 53) + (53 - 53) <=? emax - prec) with true
      by (symmetry; apply Z.leb_le; unfold emax, prec; lia).
    exists r, (e + (d - 53) + (53 - 53)). split; [reflexivity|]. left. lia.
  - assert (Hr53 : Z.pos r = 2 ^ 53) by lia.
    destruct (shr_fexp_normal r (e + (d - 53)) loc_Exact 54 ltac:(rewrite Hr53; cbn; lia) ltac:(lia) ltac:(lia))
      as (mrs2 & -> & Hm2).
    rewrite Hr53 in Hm2. change (2 ^ 53 / 2 ^ (54 - 53)) with (2 ^ 52) in Hm2. rewrite Hm2.
    change (2 ^ 52) with (Z.pos 4503599627370496).
    replace (e + (d - 53) + (54 - 53) <=? emax - prec) with true
      by (symmetry; apply Z.leb_le; unfold emax, prec; lia).
    exists 4503599627370496%positive, (e + (d - 53) + (54 - 53)). split; [reflexivity|].
    right. change (Z.pos 4503599627370496) with (2 ^ 52). lia.
Qed.

Lemma SFleb_finite_pos m1 e1 m2 e2 :
  e1 < e2 \/ (e1 = e2 /\ Z.pos m1 <= Z.pos m2) ->
  SFleb (S754_finite false m1 e1) (S754_finite false m2 e2) = true.
Proof.
  unfold SFleb. cbn [SFcompare]. intros [H|[-> H]].
  - apply Z.compare_lt_iff in H. rewrite H. reflexivity.
  - rewrite Z.compare_refl.
    change (Pos.compare_cont Eq m1 m2) with (Pos.compare m1 m2).
    destruct (Pos.compare_spec m1 m2); try reflexivity. lia.
Qed.

(** A float between 0.5 and 6 is normal, with exponent between -53 and -50. *)
Lemma gap_range (b : float) :
  (0.5 <=? b)%float = true -> (b <=? 6)%float = true ->
  exists m e, Prim2SF b = S754_finite false m e
              /\ -53 <= e <= -50 /\ 2 ^ 52 <= Z.pos m < 2 ^ 53.
Proof.
  intros Hlo Hhi. rewrite FloatAxioms.leb_spec in Hlo, Hhi.
  pose proof (Prim2SF_valid b) as Hv.
  replace (Prim2SF 0.5) with (S754_finite false 4503599627370496 (-53)) in Hlo
    by (vm_compute; reflexivity).
  replace (Prim2SF 6) with (S754_finite false 6755399441055744 (-50)) in Hhi
    by (vm_compute; reflexivity).
  unfold SFleb in *.
  destruct (Prim2SF b) as [s|s| |s m e]; cbn [SFcompare] in *; try discriminate.
  - destruct s; discriminate.
  - destruct s; [discriminate|].
    assert (-53 <= e <= -50) as He.
    { destruct (Z.compare_spec (-53) e); destruct (Z.compare_spec e (-50));
        try discriminate; lia. }
    exists m, e. split; [reflexivity|]. split; [assumption|].
    cbn [valid_binary] in Hv. unfold bounded, canonical_mantissa in Hv.
    apply andb_prop in Hv as [Hc _]. apply Z.eqb_eq in Hc.
    unfold fexp, SpecFloat.emin, prec, emax in Hc.
    assert (Z.pos (digits2_pos m) = 53) as Hd by lia.
    pose proof (digits2_pos_bounds m) as Hm. rewrite Hd in Hm. exact Hm.
Qed.

Lemma three_mantissa (m : positive) :
  Z.pos (m * 6755399441055744) = Z.pos m * 3 * 2 ^ 51.
Proof. rewrite Pos2Z.inj_mul. change (Z.pos 6755399441055744) with (3 * 2 ^ 51). lia. Qed.

(** The product of a float [m * 2^e] of the gap range with [3 * 2^51 * 2^c]
    (0.75 for [c = -53], 1.5 for [c = -52]), as the specification rounds it. *)
Lemma mul_three_round (m : positive) (e c : Z) :
  2 ^ 52 <= Z.pos m < 2 ^ 53 -> -53 <= e <= -50 -> -53 <= c <= -52 ->
  exists r e',
    binary_round_aux prec emax false (Z.pos (m * 6755399441055744)) (e + c) loc_Exact
    = S754_finite false r e'
    /\ ((e' = e + c + 52 /\ Z.pos m <= Z.pos r)
        \/ (e' = e + c + 53 /\ 2 ^ 52 <= Z.pos r <= Z.pos m)).
Proof.
  intros Hm He Hc. rewrite three_mantissa.
  destruct (Z_lt_le_dec (Z.pos m * 3) (2 ^ 54)) as [Hlt|Hge].
  - assert (Hp : 2 ^ (105 - 1) <= Z.pos m * 3 * 2 ^ 51 < 2 ^ 105).
    { change (2 ^ (105 - 1)) with (2 ^ 53 * 2 ^ 51). change (2 ^ 105) with (2 ^ 54 * 2 ^ 51).
      change (2 ^ 52) with 4503599627370496 in Hm. change (2 ^ 53) with 9007199254740992 in *.
      change (2 ^ 54) with 18014398509481984 in *. change (2 ^ 51) with 2251799813685248. lia. }
    destruct (Z.pos m * 3 * 2 ^ 51) as [|p|p] eqn:Ep; try lia.
    destruct (binary_round_aux_normal p (e + c) 105 Hp ltac:(lia) ltac:(lia) ltac:(lia))
      as (r & e' & -> & H).
    exists r, e'. split; [reflexivity|].
    change (105 - 53) with 52 in H.
    assert (Hq1 : Z.pos p / 2 ^ 52 * 2 ^ 52 <= Z.pos p)
      by (rewrite Z.mul_comm; apply Z.mul_div_le; reflexivity).
    assert (Hq2 : Z.pos p < (Z.pos p / 2 ^ 52 + 1) * 2 ^ 52).
    { rewrite Z.mul_comm, Z.mul_add_distr_l, Z.mul_1_r.
      pose proof (Z.mod_pos_bound (Z.pos p) (2 ^ 52) eq_refl).
      pose proof (Z.div_mod (Z.pos p) (2 ^ 52) ltac:(discriminate)). lia. }
    set (q := Z.pos p / 2 ^ 52) in *. rewrite <- Ep in Hq1, Hq2.
    change (2 ^ 52) with 4503599627370496 in *. change (2 ^ 53) with 9007199254740992 in *.
    change (2 ^ 51) with 2251799813685248 in *.
    destruct H as [(-> & Hr & _)|(-> & Hr & _)].
    + left. split; [lia|]. lia.
    + right. split; [lia|]. lia.
  - assert (Hp : 2 ^ (106 - 1) <= Z.pos m * 3 * 2 ^ 51 < 2 ^ 106).
    { change (2 ^ (106 - 1)) with (2 ^ 54 * 2 ^ 51). change (2 ^ 106) with (2 ^ 55 * 2 ^ 51).
      change (2 ^ 52) with 4503599627370496 in Hm. change (2 ^ 53) with 9007199254740992 in *.
      change (2 ^ 54) with 18014398509481984 in *. change (2 ^ 55) with 36028797018963968.
      change (2 ^ 51) with 2251799813685248. lia. }
    destruct (Z.pos m * 3 * 2 ^ 51) as [|p|p] eqn:Ep; try lia.
    destruct (binary_round_aux_normal p (e + c) 106 Hp ltac:(lia) ltac:(lia) ltac:(lia))
      as (r & e' & -> & H).
    exists r, e'. split; [reflexivity|].
    change (106 - 53) with 53 in H.
    assert (Hq1 : Z.pos p / 2 ^ 53 * 2 ^ 53 <= Z.pos p)
      by (rewrite Z.mul_comm; apply Z.mul_div_le; reflexivity).
    assert (Hq2 : Z.pos p < (Z.pos p / 2 ^ 53 + 1) * 2 ^ 53).
    { rewrite Z.mul_comm, Z.mul_add_distr_l, Z.mul_1_r.
      pose proof (Z.mod_pos_bound (Z.pos p) (2 ^ 53) eq_refl).
      pose proof (Z.div_mod (Z.pos p) (2 ^ 53) ltac:(discriminate)). lia. }
    set (q := Z.pos p / 2 ^ 53) in *. rewrite <- Ep in Hq1, Hq2.
    change (2 ^ 52) with 4503599627370496 in *. change (2 ^ 53) with 9007199254740992 in *.
    change (2 ^ 54) with 18014398509481984 in *.
    change (2 ^ 51) with 2251799813685248 in *.
    destruct H as [(-> & Hr & _)|(-> & _ & Hr)].
    + right. split; [lia|]. lia.
    + exfalso. lia.
Qed.

Lemma three_quarters_le (b : float) :
  (0.5 <=? b)%float = true -> (b <=? 6)%float = true ->
  (b * 0.75 <=? b)%float = true.
Proof.
  intros Hlo Hhi. destruct (gap_range b Hlo Hhi) as (m & e & Hb & He & Hm).
  rewrite FloatAxioms.leb_spec, mul_spec, Hb.
  replace (Prim2SF 0.75) with (S754_finite false 6755399441055744 (-53))
    by (vm_compute; reflexivity).
  unfold SF64mul. cbn [SFmul xorb].
  destruct (mul_three_round m e (-53) Hm He ltac:(lia)) as (r & e' & -> & H).
  apply SFleb_finite_pos. lia.
Qed.

Lemma le_three_halves (b : float) :
  (0.5 <=? b)%float = true -> (b <=? 6)%float = true ->
  (b <=? b * 1.5)%float = true.
Proof.
  intros Hlo Hhi. destruct (gap_range b Hlo Hhi) as (m & e & Hb & He & Hm).
  rewrite FloatAxioms.leb_spec, mul_spec, Hb.
  replace (Prim2SF 1.5) with (S754_finite false 6755399441055744 (-52))
    by (vm_compute; reflexivity).
  unfold SF64mul. cbn [SFmul xorb].
  destruct (mul_three_round m e (-52) Hm He ltac:(lia)) as (r & e' & -> & H).
  apply SFleb_finite_pos. lia.
Qed.
(** ** The potential model *)

(** The clamp of line 79, by cases on its argument. *)
Lemma clamp_cases (y : float) :
  let base := py_max 0.5 (py_min 6.0 y) in
  ((0.5 <=? base)%float = true /\ (base <=? 6.0)%float = true) /\
  ((y <=? 0.5)%float = true -> base = 0.5%float) /\
  ((6.0 <=? y)%float = true -> base = 6.0%float) /\
  ((0.5 <=? y)%float = true -> (y <=? 6.0)%float = true -> base = y).
Proof.
  intros base. unfold base, py_min.
  destruct (y <? 6)%float eqn:H6.
  - unfold py_max. destruct (0.5 <? y)%float eqn:H5.
    + repeat split; auto using ltb_leb.
      * intros H. apply leb_not_ltb in H. congruence.
      * intros H. apply leb_not_ltb in H. congruence.
    + repeat split; try reflexivity.
      * intros H. apply leb_not_ltb in H. congruence.
      * intros H _. symmetry.
        eapply leb_sym_const; [vm_compute; reflexivity | assumption | assumption].
  - replace (py_max 0.5 6) with 6%float by (vm_compute; reflexivity).
    repeat split; try reflexivity.
    + intros H. apply leb_half_ltb_six in H. congruence.
    + intros _ H. symmetry.
      eapply leb_antisym_const; [vm_compute; reflexivity | assumption | assumption].
Qed.

Lemma py_max_zero_nonneg (y : float) : (0 <=? py_max 0.0 y)%float = true.
Proof.
  unfold py_max. destruct (0 <? y)%float eqn:H.
  - apply ltb_leb, H.
  - vm_compute. reflexivity.
Qed.

Lemma div_half_even_nonneg n d : 0 <= n -> 0 < d -> 0 <= div_half_even n d.
Proof.
  intros Hn Hd. unfold div_half_even.
  assert (0 <= n / d) by (apply Z.div_pos; lia).
  destruct (2 * (n mod d) ?= d); try destruct (Z.even (n / d)); lia.
Qed.

(** [round] of a float that is at least zero is a natural number. *)
Lemma py_round_nonneg (x : float) (z : Z) :
  (0 <=? x)%float = true -> py_round x = Return z -> 0 <= z.
Proof.
  intros Hx. rewrite FloatAxioms.leb_spec in Hx. unfold py_round.
  replace (Prim2SF 0) with (S754_zero false) in Hx by (vm_compute; reflexivity).
  unfold SFleb in Hx.
  destruct (Prim2SF x) as [s|s| |s m e]; cbn [SFcompare] in Hx; try discriminate.
  - intros [= <-]. lia.
  - destruct s; [discriminate|]. intros [= <-]. cbn [cond_Zopp].
    unfold scaled_half_even. destruct (0 <=? e) eqn:He.
    + apply Z.leb_le in He. assert (0 < 2 ^ e) by (apply Z.pow_pos_nonneg; lia). lia.
    + apply Z.leb_gt in He. apply div_half_even_nonneg; [lia|].
      apply Z.pow_pos_nonneg; lia.
Qed.


(** ** The request operation *)

Section Request.
Context {B : Builtins}.

Lemma berakna_invalid payload st :
  revenue_of payload = None \/ sni_3_of payload = "" \/ size_class_of payload = "" ->
  berakna payload st = (Return (Error missing_fields), st).
Proof.
  unfold revenue_of, sni_3_of, size_class_of, berakna. intros H.
  destruct (to_num _) as [revenue|]; [|reflexivity].
  destruct H as [H|[H|H]]; [discriminate| |]; rewrite H.
  - reflexivity.
  - rewrite orb_true_r. reflexivity.
Qed.

Lemma berakna_lookup payload st revenue :
  revenue_of payload = Some revenue ->
  sni_3_of payload <> "" -> size_class_of payload <> "" ->
  berakna payload st =
  (match sub_of payload (DF st) with
   | [] => Return (Error (no_benchmark (year_of payload) (sni_3_of payload)
                                       (size_class_of payload)))
   | _ :: _ =>
       let bench := fun col => PFloat (median (map col (sub_of payload (DF st)))) in
       match to_num (bench col_rorelsemarginal_pct), to_num (bench col_nettomarginal_pct),
             to_num (bench col_personalkostnad_netto_pct) with
       | Some opm, Some npm, Some staff_pct =>
           report revenue (to_num (bench col_antal_foretag)) opm npm staff_pct
                  (to_num (bench col_personalkostnad_per_anst_tkr))
       | _, _, _ => Return (Error incomplete)
       end
   end, after_lookup payload st).
Proof.
  unfold after_lookup, sub_of, revenue_of, sni_3_of, size_class_of, year_of, berakna.
  intros -> Hs Hc.
  apply String.eqb_neq in Hs, Hc. rewrite Hs, Hc. cbn [orb].
  unfold bind, read_DF, new_frame, ret, eval. cbn [DF temps].
  destruct (select _ _ _ _) as [|r sub]; [reflexivity|].
  destruct (to_num (PFloat (median (map col_rorelsemarginal_pct (r :: sub))))); [|reflexivity].
  destruct (to_num (PFloat (median (map col_nettomarginal_pct (r :: sub))))); [|reflexivity].
  destruct (to_num (PFloat (median (map col_personalkostnad_netto_pct (r :: sub))))); reflexivity.
Qed.

(** C9: a request never changes the table: whatever the payload and
    however the call ends, [DF] after it is [DF] before it; the store
    only gains the frames of the filtered subset. *)
Theorem berakna_preserves_DF (payload : gmap string pyval) (st : store) :
  DF (snd (berakna payload st)) = DF st
  /\ (snd (berakna payload st) = st
      \/ temps (snd (berakna payload st))
         = temps st ++ [sub_of payload (DF st); sub_of payload (DF st)]).
Proof.
  destruct (revenue_of payload) as [revenue|] eqn:Hr.
  - destruct (String.eqb_spec (sni_3_of payload) "") as [Hs|Hs];
      [rewrite berakna_invalid by auto; auto|].
    destruct (String.eqb_spec (size_class_of payload) "") as [Hc|Hc];
      [rewrite berakna_invalid by auto; auto|].
    rewrite (berakna_lookup payload st revenue Hr Hs Hc). cbn [snd after_lookup DF temps].
    split; [reflexivity|]. right. rewrite <- app_assoc. reflexivity.
  - rewrite berakna_invalid by auto. auto.
Qed.


Lemma to_num_float (v : float) :
  to_num (PFloat v) = if is_nan v then None else Some v.
Proof. reflexivity. Qed.

(** [berakna] reads its payload only through the four fields. *)
Lemma berakna_ext payload payload' st :
  year_of payload = year_of payload' -> sni_3_of payload = sni_3_of payload' ->
  size_class_of payload = size_class_of payload' ->
  revenue_of payload = revenue_of payload' ->
  berakna payload st = berakna payload' st.
Proof.
  intros Hy Hs Hc Hr.
  destruct (revenue_of payload) as [revenue|] eqn:Er.
  - destruct (String.eqb_spec (sni_3_of payload) "") as [Es|Es].
    { rewrite !berakna_invalid; auto. right. left. congruence. }
    destruct (String.eqb_spec (size_class_of payload) "") as [Ec|Ec].
    { rewrite !berakna_invalid; auto. right. right. congruence. }
    rewrite (berakna_lookup payload st revenue), (berakna_lookup payload' st revenue);
      try congruence.
    unfold after_lookup, sub_of. rewrite Hy, Hs, Hc. reflexivity.
  - rewrite !berakna_invalid; auto.
Qed.

Lemma is_finite_not_nan (x : float) : is_finite x = true -> is_nan x = false.
Proof. unfold is_finite. destruct (is_nan x); [discriminate | reflexivity]. Qed.

(** What a request that passes validation returns: the not-found error,
    the incomplete-data error, or the report on the medians of the
    selected rows, computed with the validated revenue. *)
Lemma berakna_answer payload st revenue :
  revenue_of payload = Some revenue ->
  sni_3_of payload <> "" -> size_class_of payload <> "" ->
  fst (berakna payload st)
  = match sub_of payload (DF st) with
    | [] => Return (Error (no_benchmark (year_of payload) (sni_3_of payload)
                                        (size_class_of payload)))
    | _ :: _ =>
        let bench := fun col : row -> float => median (map col (sub_of payload (DF st))) in
        if is_nan (bench col_rorelsemarginal_pct) || is_nan (bench col_nettomarginal_pct)
           || is_nan (bench col_personalkostnad_netto_pct)
        then Return (Error incomplete)
        else report revenue (to_num (PFloat (bench col_antal_foretag)))
                    (bench col_rorelsemarginal_pct) (bench col_nettomarginal_pct)
                    (bench col_personalkostnad_netto_pct)
                    (to_num (PFloat (bench col_personalkostnad_per_anst_tkr)))
    end.
Proof.
  intros Hr Hs Hc. rewrite (berakna_lookup payload st revenue Hr Hs Hc). cbn [fst].
  destruct (sub_of payload (DF st)) as [|r0 sub0]; [reflexivity|].
  set (sub := r0 :: sub0). cbv beta zeta. rewrite !to_num_float.
  destruct (is_nan (median (map col_rorelsemarginal_pct sub))); [reflexivity|].
  destruct (is_nan (median (map col_nettomarginal_pct sub))); [reflexivity|].
  destruct (is_nan (median (map col_personalkostnad_netto_pct sub))); reflexivity.
Qed.

(** [report] returns the success dict or raises: it makes no error dict. *)
Lemma report_Return revenue antal opm npm staff_pct staff_per a :
  report revenue antal opm npm staff_pct staff_per = Return a ->
  exists r, a = Success r.
Proof.
  unfold report. destruct (estimate_potential_frictionless revenue opm) as [pot gaps].
  unfold obind.
  repeat match goal with
         | |- context [match ?o with Return _ => _ | Raise _ => _ end] =>
             destruct o; try discriminate
         end.
  intros [= <-]. eexists. reflexivity.
Qed.

(** What [report] rounds to make a success dict. *)
Lemma report_amounts revenue antal opm npm staff_pct staff_per r :
  report revenue antal opm npm staff_pct staff_per = Return (Success r) ->
  let pot := fst (estimate_potential_frictionless revenue opm) in
  (py_round (revenue * (opm / 100.0)) = Return (median_ebit_kr r)
   /\ py_round (revenue * (staff_pct / 100.0)) = Return (median_personal_kr r))
  /\ (py_round (low pot) = Return (potential_low_kr r)
      /\ py_round (mid pot) = Return (potential_mid_kr r)
      /\ py_round (high pot) = Return (potential_high_kr r)).
Proof.
  unfold report. destruct (estimate_potential_frictionless revenue opm) as [pot gaps].
  cbn [fst]. unfold obind.
  repeat match goal with
         | |- context [match ?o with Return _ => _ | Raise _ => _ end] =>
             destruct o; try discriminate
         end.
  intros [= <-]. cbn. repeat split.
Qed.

(** C10: a revenue sent as a string that [float()] reads as a finite
    number [x] passes validation with that number: [to_num] returns [x],
    and a request whose industry code and size class are not empty is not
    answered by the missing-fields error but by the lookup, whose report
    is computed with [x]; the request is answered exactly as if the number
    itself had been sent, and every amount of a successful response that
    depends on the revenue is the rounding of a product with [x]. *)
Theorem revenue_string_as_number (payload : gmap string pyval) (st : store)
    (s : string) (x : float) :
  payload !! "revenue" = Some (PStr s) ->
  float_of_str s = Some x ->
  is_finite x = true ->
  let bench := fun col : row -> float => median (map col (sub_of payload (DF st))) in
  let pot := fst (estimate_potential_frictionless x (bench col_rorelsemarginal_pct)) in
  revenue_of payload = Some x
  /\ berakna payload st = berakna (<["revenue" := PFloat x]> payload) st
  /\ (sni_3_of payload <> "" -> size_class_of payload <> "" ->
      fst (berakna payload st) <> Return (Error missing_fields)
      /\ fst (berakna payload st)
         = match sub_of payload (DF st) with
           | [] => Return (Error (no_benchmark (year_of payload) (sni_3_of payload)
                                               (size_class_of payload)))
           | _ :: _ =>
               if is_nan (bench col_rorelsemarginal_pct)
                  || is_nan (bench col_nettomarginal_pct)
                  || is_nan (bench col_personalkostnad_netto_pct)
               then Return (Error incomplete)
               else report x (to_num (PFloat (bench col_antal_foretag)))
                           (bench col_rorelsemarginal_pct) (bench col_nettomarginal_pct)
                           (bench col_personalkostnad_netto_pct)
                           (to_num (PFloat (bench col_personalkostnad_per_anst_tkr)))
           end)
  /\ (forall r, fst (berakna payload st) = Return (Success r) ->
        py_round (x * (bench col_rorelsemarginal_pct / 100.0)) = Return (median_ebit_kr r)
        /\ py_round (x * (bench col_personalkostnad_netto_pct / 100.0))
           = Return (median_personal_kr r)
        /\ py_round (low pot) = Return (potential_low_kr r)
        /\ py_round (mid pot) = Return (potential_mid_kr r)
        /\ py_round (high pot) = Return (potential_high_kr r)).
Proof.
  intros Hp Hs Hx bench pot. apply is_finite_not_nan in Hx.
  assert (Hr : revenue_of payload = Some x).
  { unfold revenue_of. rewrite Hp. change (default PNone (Some (PStr s))) with (PStr s).
    unfold to_num, py_float. rewrite Hs, Hx. reflexivity. }
  split; [exact Hr|]. split; [|split].
  - apply berakna_ext.
    + unfold year_of. rewrite lookup_insert_ne by discriminate. reflexivity.
    + unfold sni_3_of. rewrite lookup_insert_ne by discriminate. reflexivity.
    + unfold size_class_of. rewrite lookup_insert_ne by discriminate. reflexivity.
    + rewrite Hr. unfold revenue_of. rewrite lookup_insert_eq.
      change (default PNone (Some (PFloat x))) with (PFloat x).
      rewrite to_num_float, Hx. reflexivity.
  - intros Hsni Hsize.
    pose proof (berakna_answer payload st x Hr Hsni Hsize) as Ha. cbv zeta in Ha.
    fold bench in Ha. split; [|exact Ha].
    rewrite Ha. destruct (sub_of payload (DF st)) as [|r0 sub0]; [discriminate|].
    destruct (is_nan (bench col_rorelsemarginal_pct) || is_nan (bench col_nettomarginal_pct)
              || is_nan (bench col_personalkostnad_netto_pct)); [discriminate|].
    intros E. apply report_Return in E as (r & E). discriminate.
  - intros r H.
    destruct (String.eqb_spec (sni_3_of payload) "") as [Hsni|Hsni];
      [rewrite berakna_invalid in H by auto; discriminate|].
    destruct (String.eqb_spec (size_class_of payload) "") as [Hsize|Hsize];
      [rewrite berakna_invalid in H by auto; discriminate|].
    rewrite (berakna_answer payload st x Hr Hsni Hsize) in H. cbv zeta in H.
    fold bench in H.
    destruct (sub_of payload (DF st)) as [|r0 sub0]; [discriminate|].
    destruct (is_nan (bench col_rorelsemarginal_pct) || is_nan (bench col_nettomarginal_pct)
              || is_nan (bench col_personalkostnad_netto_pct)); [discriminate|].
    apply report_amounts in H. cbv zeta in H. fold pot in H. tauto.
Qed.

(** The end-to-end request returns [example_result]. *)
Lemma end_to_end_result :
  fst (berakna (example_payload (PInt 5000000)) example_store)
  = Return (Success example_result).
Proof. vm_compute. reflexivity. Qed.

End Request.

(** ** The median *)

Lemma leb_total (x y : float) :
  is_nan x = false -> is_nan y = false ->
  (x <=? y)%float = false -> (y <=? x)%float = true.
Proof.
  intros Hx Hy. rewrite !FloatAxioms.leb_spec. unfold SFleb.
  destruct (SFcompare (Prim2SF x) (Prim2SF y)) as [c|] eqn:E.
  - rewrite (SFcompare_antisym _ _ _ E). destruct c; cbn [CompOpp]; congruence.
  - exfalso.
    assert (Prim2SF x <> S754_nan) as Nx
      by (intros H; apply is_nan_spec in H; congruence).
    assert (Prim2SF y <> S754_nan) as Ny
      by (intros H; apply is_nan_spec in H; congruence).
    destruct (Prim2SF x) as [?|?| |? ? ?], (Prim2SF y) as [?|?| |? ? ?];
      cbn [SFcompare] in E; congruence.
Qed.

Lemma insert_sorted_perm (x : float) (l : list float) :
  Permutation (insert_sorted x l) (x :: l).
Proof.
  induction l as [|y l IH]; cbn [insert_sorted]; [reflexivity|].
  destruct (x <=? y)%float; [reflexivity|].
  rewrite IH. apply perm_swap.
Qed.

Lemma sort_perm (l : list float) : Permutation (sort l) l.
Proof.
  induction l as [|x l IH]; [reflexivity|].
  unfold sort. cbn [foldr]. fold (sort l).
  rewrite insert_sorted_perm. now constructor.
Qed.

Lemma insert_sorted_Sorted (x : float) (l : list float) :
  is_nan x = false -> Forall (fun y => is_nan y = false) l ->
  Sorted float_le l -> Sorted float_le (insert_sorted x l).
Proof.
  intros Hx Hl Hs. induction l as [|y l IH]; cbn [insert_sorted].
  - repeat constructor.
  - destruct (x <=? y)%float eqn:E.
    + constructor; [assumption|]. constructor. exact E.
    + apply Forall_cons_1 in Hl as [Hy Hl]. apply Sorted_inv in Hs as [Hs Hh].
      constructor; [apply IH; assumption|].
      assert (float_le y x) as Hyx by (apply leb_total; assumption).
      destruct l as [|z l]; cbn [insert_sorted].
      * constructor. exact Hyx.
      * destruct (x <=? z)%float; constructor; [exact Hyx|].
        apply HdRel_inv in Hh. exact Hh.
Qed.

Lemma sort_Sorted (l : list float) :
  Forall (fun y => is_nan y = false) l -> Sorted float_le (sort l).
Proof.
  induction l as [|x l IH]; intros Hl; [constructor|].
  apply Forall_cons_1 in Hl as [Hx Hl].
  unfold sort. cbn [foldr]. fold (sort l).
  apply insert_sorted_Sorted; [assumption| |apply IH, Hl].
  eapply Permutation_Forall; [symmetry; apply sort_perm|exact Hl].
Qed.

Lemma dropna_not_nan (l : list float) : Forall (fun y => is_nan y = false) (dropna l).
Proof.
  apply List.Forall_forall. intros x Hx. unfold dropna in Hx.
  apply List.filter_In in Hx as [_ Hx]. now apply negb_true_iff in Hx.
Qed.

(** The median that the server takes is the standard median. *)
Lemma median_standard (l : list float) : standard_median l (median l).
Proof.
  exists (sort (dropna l)). split; [apply sort_perm|].
  split; [apply sort_Sorted, dropna_not_nan|].
  unfold median. destruct (length (sort (dropna l))) as [|n] eqn:E; [reflexivity|].
  change (S n =? 0)%nat with false. cbv iota.
  destruct (Nat.odd (S n)); reflexivity.
Qed.

Lemma median_dropna (l : list float) : median l = median (dropna l).
Proof.
  unfold median. replace (dropna (dropna l)) with (dropna l); [reflexivity|].
  unfold dropna. induction l as [|x l IH]; [reflexivity|].
  cbn [List.filter]. destruct (negb (is_nan x)) eqn:E; [|exact IH].
  cbn [List.filter]. rewrite E. f_equal. exact IH.
Qed.

Lemma median_all_null (l : list float) : dropna l = [] -> is_nan (median l) = true.
Proof. intros H. unfold median. rewrite H. reflexivity. Qed.

Lemma report_not_Error revenue antal opm npm staff_pct staff_per e :
  report revenue antal opm npm staff_pct staff_per <> Return (Error e).
Proof.
  unfold report. destruct (estimate_potential_frictionless revenue opm) as [pot gaps].
  unfold obind.
  repeat match goal with
         | |- context [match ?o with Return _ => _ | Raise _ => _ end] =>
             destruct o; try discriminate
         end.
Qed.

Lemma report_optional_null revenue antal opm npm staff_pct staff_per r :
  report revenue antal opm npm staff_pct staff_per = Return (Success r) ->
  (antal = None -> antal_foretag r = None)
  /\ (staff_per = None -> personalkostnad_per_anst_tkr r = None).
Proof.
  unfold report. destruct (estimate_potential_frictionless revenue opm) as [pot gaps].
  unfold obind.
  destruct (round_opt antal) as [a|] eqn:Ea; [|discriminate].
  destruct (round_opt staff_per) as [p|] eqn:Ep; [|discriminate].
  repeat match goal with
         | |- context [match ?o with Return _ => _ | Raise _ => _ end] =>
             destruct o; try discriminate
         end.
  intros [= <-]. cbn [antal_foretag personalkostnad_per_anst_tkr].
  split; intros ->; cbn [round_opt] in *; congruence.
Qed.

Section Medians.
Context {B : Builtins}.

(** C7: when rows match, each of the five numeric columns is reduced on
    its own by the standard median of its non-null values (null when it
    has none); the request ends in the incomplete-data error exactly when
    the median of the operating margin, of the net margin or of the staff
    cost share is null; otherwise it goes on to the report, in which a
    null median of the company count or of the staff cost per employee is
    passed on as null, as in the response to the end-to-end request. *)
Theorem medians_and_incomplete (payload : gmap string pyval) (st : store)
    (revenue : float) :
  let sub := sub_of payload (DF st) in
  let bench := fun col : row -> float => median (map col sub) in
  revenue_of payload = Some revenue ->
  sni_3_of payload <> "" -> size_class_of payload <> "" ->
  sub <> [] ->
  (forall col : row -> float,
      standard_median (map col sub) (bench col)
      /\ (dropna (map col sub) = [] -> is_nan (bench col) = true))
  /\ (fst (berakna payload st) = Return (Error incomplete) <->
      is_nan (bench col_rorelsemarginal_pct) = true
      \/ is_nan (bench col_nettomarginal_pct) = true
      \/ is_nan (bench col_personalkostnad_netto_pct) = true)
  /\ (is_nan (bench col_rorelsemarginal_pct) = false ->
      is_nan (bench col_nettomarginal_pct) = false ->
      is_nan (bench col_personalkostnad_netto_pct) = false ->
      fst (berakna payload st)
      = report revenue (to_num (PFloat (bench col_antal_foretag)))
               (bench col_rorelsemarginal_pct) (bench col_nettomarginal_pct)
               (bench col_personalkostnad_netto_pct)
               (to_num (PFloat (bench col_personalkostnad_per_anst_tkr))))
  /\ (forall r, fst (berakna payload st) = Return (Success r) ->
      (is_nan (bench col_antal_foretag) = true -> antal_foretag r = None)
      /\ (is_nan (bench col_personalkostnad_per_anst_tkr) = true ->
          personalkostnad_per_anst_tkr r = None))
  /\ (exists r, fst (berakna (example_payload (PInt 5000000)) example_store)
                = Return (Success r)
                /\ antal_foretag r = None /\ personalkostnad_per_anst_tkr r = None).
Proof.
  intros sub bench Hr Hs Hc Hsub.
  split; [intros col; split; [apply median_standard | apply median_all_null]|].
  assert (exists r, fst (berakna (example_payload (PInt 5000000)) example_store)
                    = Return (Success r)
                    /\ antal_foretag r = None /\ personalkostnad_per_anst_tkr r = None)
    as Hex
    by (exists example_result; split; [apply end_to_end_result | split; reflexivity]).
  rewrite (berakna_lookup payload st revenue Hr Hs Hc). cbn [fst].
  subst bench. subst sub. set (sub := sub_of payload (DF st)) in *. clearbody sub.
  destruct sub as [|r0 sub0]; [congruence|].
  set (sub := r0 :: sub0). cbv beta zeta. rewrite !to_num_float.
  destruct (is_nan (median (map col_rorelsemarginal_pct sub))) eqn:E1;
    [|destruct (is_nan (median (map col_nettomarginal_pct sub))) eqn:E2;
      [|destruct (is_nan (median (map col_personalkostnad_netto_pct sub))) eqn:E3]].
  1-3: (split; [split; [intros _; auto | reflexivity]|]);
       (split; [intros; discriminate|]); (split; [intros r; discriminate | exact Hex]).
  split; [split; [intros H; exfalso; exact (report_not_Error _ _ _ _ _ _ _ H)
                 | intros [H|[H|H]]; discriminate]|].
  split; [reflexivity|]. split; [|exact Hex].
  intros r Hrep. apply report_optional_null in Hrep as [Ha Hp].
  split; intros H; [apply Ha | apply Hp]; rewrite H; reflexivity.
Qed.

End Medians.

(** ** What a successful request reports *)

Lemma report_Success revenue antal opm npm staff_pct staff_per r :
  report revenue antal opm npm staff_pct staff_per = Return (Success r) ->
  let pot := fst (estimate_potential_frictionless revenue opm) in
  let gaps := snd (estimate_potential_frictionless revenue opm) in
  (round_opt antal = Return (antal_foretag r)
   /\ round_opt staff_per = Return (personalkostnad_per_anst_tkr r))
  /\ (rorelsemarginal_pct r = py_round1 opm /\ nettomarginal_pct r = py_round1 npm
      /\ personalkostnad_netto_pct r = py_round1 staff_pct)
  /\ (py_round (revenue * (opm / 100.0)) = Return (median_ebit_kr r)
      /\ py_round (revenue * (staff_pct / 100.0)) = Return (median_personal_kr r))
  /\ (gap_low_pp r = py_round1 (low gaps) /\ gap_high_pp r = py_round1 (high gaps))
  /\ (py_round (low pot) = Return (potential_low_kr r)
      /\ py_round (mid pot) = Return (potential_mid_kr r)
      /\ py_round (high pot) = Return (potential_high_kr r)).
Proof.
  unfold report. destruct (estimate_potential_frictionless revenue opm) as [pot gaps].
  cbn [fst snd]. unfold obind.
  repeat match goal with
         | |- context [match ?o with Return _ => _ | Raise _ => _ end] =>
             destruct o; try discriminate
         end.
  intros [= <-]. cbn. repeat split.
Qed.

Lemma berakna_Success {B : Builtins} payload st r :
  fst (berakna payload st) = Return (Success r) ->
  exists revenue antal opm npm staff_pct staff_per,
    revenue_of payload = Some revenue
    /\ report revenue antal opm npm staff_pct staff_per = Return (Success r).
Proof.
  destruct (revenue_of payload) as [revenue|] eqn:Hr;
    [|rewrite berakna_invalid by auto; discriminate].
  destruct (String.eqb_spec (sni_3_of payload) "") as [Hs|Hs];
    [rewrite berakna_invalid by auto; discriminate|].
  destruct (String.eqb_spec (size_class_of payload) "") as [Hc|Hc];
    [rewrite berakna_invalid by auto; discriminate|].
  rewrite (berakna_lookup payload st revenue Hr Hs Hc). cbn [fst].
  destruct (sub_of payload (DF st)) as [|r0 sub]; [discriminate|]. cbv zeta.
  repeat match goal with
         | |- context [match ?o with Some _ => _ | None => _ end] =>
             destruct o; try discriminate
         end.
  all: intros H; eexists _, _, _, _, _, _; split; [reflexivity | exact H].
Qed.

Lemma berakna_potentials_nonneg {B : Builtins} payload st r :
  fst (berakna payload st) = Return (Success r) ->
  0 <= potential_low_kr r /\ 0 <= potential_mid_kr r /\ 0 <= potential_high_kr r.
Proof.
  intros H. apply berakna_Success in H as (revenue & antal & opm & npm & sp & sper & _ & H).
  apply report_Success in H as (_ & _ & _ & _ & Hl & Hm & Hh).
  unfold estimate_potential_frictionless in *. cbn [fst tiers_map low mid high] in *.
  repeat split; eapply py_round_nonneg; try eassumption; apply py_max_zero_nonneg.
Qed.

(** ** The potential model: the claims *)

(** C5: whatever the operating margin, the base gap (the ["mid"] gap)
    lies between 0.5 and 6.0, and it is the margin times 0.30 clamped to
    that interval: 0.5 when the product is at most 0.5, 6.0 when it is at
    least 6.0, the product itself in between; margins of -1000 and 1000
    give 0.5 and 6.0. *)
Theorem base_gap_clamped (revenue m : float) :
  let y := (m * 0.30)%float in
  let base := mid (snd (estimate_potential_frictionless revenue m)) in
  ((0.5 <=? base)%float = true /\ (base <=? 6.0)%float = true) /\
  ((y <=? 0.5)%float = true -> base = 0.5%float) /\
  ((6.0 <=? y)%float = true -> base = 6.0%float) /\
  ((0.5 <=? y)%float = true -> (y <=? 6.0)%float = true -> base = y) /\
  mid (snd (estimate_potential_frictionless revenue (-1000))) = 0.5%float /\
  mid (snd (estimate_potential_frictionless revenue 1000)) = 6.0%float.
Proof.
  intros y base. unfold base, estimate_potential_frictionless. cbn [snd mid].
  fold y. destruct (clamp_cases y) as (H1 & H2 & H3 & H4).
  repeat split; try assumption; try apply H1; vm_compute; reflexivity.
Qed.

(** C6: the three gaps are ordered, low <= mid <= high; each potential
    is [max(0, revenue * gap / 100)], hence at least zero whatever the
    revenue, negative ones included; and the amount that [round] makes of
    it, when it makes one, is a natural number: the three potentials of
    a successful response are at least zero. *)
Theorem potential_tiers_ordered (revenue opm : float) :
  let pot := fst (estimate_potential_frictionless revenue opm) in
  let gaps := snd (estimate_potential_frictionless revenue opm) in
  ((low gaps <=? mid gaps)%float = true /\ (mid gaps <=? high gaps)%float = true) /\
  (low pot = py_max 0.0 (revenue * (low gaps / 100.0)) /\
   mid pot = py_max 0.0 (revenue * (mid gaps / 100.0)) /\
   high pot = py_max 0.0 (revenue * (high gaps / 100.0))) /\
  ((0 <=? low pot)%float = true /\ (0 <=? mid pot)%float = true
   /\ (0 <=? high pot)%float = true) /\
  (forall z, py_round (low pot) = Return z -> 0 <= z) /\
  (forall z, py_round (mid pot) = Return z -> 0 <= z) /\
  (forall z, py_round (high pot) = Return z -> 0 <= z) /\
  (forall (B : Builtins) (payload : gmap string pyval) (st : store) (r : result),
      fst (berakna payload st) = Return (Success r) ->
      0 <= potential_low_kr r /\ 0 <= potential_mid_kr r /\ 0 <= potential_high_kr r).
Proof.
  intros pot gaps. unfold pot, gaps, estimate_potential_frictionless.
  cbn [fst snd tiers_map low mid high].
  destruct (clamp_cases (opm * 0.30)) as ((Hlo & Hhi) & _).
  set (base := py_max 0.5 (py_min 6 (opm * 0.30))) in *.
  split; [split; [apply three_quarters_le | apply le_three_halves]; assumption|].
  split; [repeat split|].
  split; [repeat split; apply py_max_zero_nonneg|].
  split; [intros z; apply py_round_nonneg, py_max_zero_nonneg|].
  split; [intros z; apply py_round_nonneg, py_max_zero_nonneg|].
  split; [intros z; apply py_round_nonneg, py_max_zero_nonneg|].
  intros B payload st r. apply berakna_potentials_nonneg.
Qed.

(** ** The loader *)

Section Loader.
Context {B : Builtins}.

Lemma missing_columns_spec (df : frame) (c : string) :
  In c (missing_columns df) <-> In c required /\ ~ In c (columns df).
Proof.
  unfold missing_columns. rewrite List.filter_In, bool_decide_eq_true.
  rewrite list_elem_of_In. reflexivity.
Qed.

Lemma load_frame_cases (df : frame) :
  let h := harmonize (rename rename_map df) in
  ((exists c, In c required /\ ~ In c (columns h)) ->
   load_frame df
   = Raise (ValueError ("Saknar kolumner: " ++ py_str_list (missing_columns h)
                        ++ ". Har: " ++ py_str_list (columns h))))
  /\ ((forall c, In c required -> In c (columns h)) ->
      repeated_numeric h = false ->
      load_frame df = Return (normalize h)).
Proof.
  intros h. unfold load_frame. fold h.
  destruct (missing_columns h) as [|c0 l] eqn:E; split.
  - intros (c & Hc). apply missing_columns_spec in Hc. rewrite E in Hc. destruct Hc.
  - intros _ ->. reflexivity.
  - reflexivity.
  - intros Hall _. exfalso.
    assert (In c0 (missing_columns h)) as Hc by (rewrite E; left; reflexivity).
    apply missing_columns_spec in Hc as [Hr Hn]. apply Hn, Hall, Hr.
Qed.

(** C8: [load_benchmark] looks at three files only, the parquet file
    first, then the clean csv file, then the raw csv file; it loads the
    first of them that exists and nothing of the others, and raises
    [FileNotFoundError] when none exists; after renaming and fallbacks it
    raises a [ValueError] whose message lists the missing required columns
    and all the columns present whenever a required column is missing,
    and returns the normalised table when none is missing and no numeric
    label is repeated. *)
Theorem load_benchmark_sources (fs : gmap string frame) :
  let p1 := "benchmark_master_clean.parquet" in
  let p2 := "benchmark_master_clean.csv" in
  let p3 := "benchmark_master.csv" in
  (forall fs' : gmap string frame,
      fs' !! p1 = fs !! p1 -> fs' !! p2 = fs !! p2 -> fs' !! p3 = fs !! p3 ->
      load_benchmark fs' = load_benchmark fs)
  /\ (forall df, fs !! p1 = Some df -> load_benchmark fs = load_frame df)
  /\ (forall df, fs !! p1 = None -> fs !! p2 = Some df ->
                 load_benchmark fs = load_frame df)
  /\ (forall df, fs !! p1 = None -> fs !! p2 = None -> fs !! p3 = Some df ->
                 load_benchmark fs = load_frame df)
  /\ (fs !! p1 = None -> fs !! p2 = None -> fs !! p3 = None ->
      load_benchmark fs = Raise (FileNotFoundError no_file))
  /\ (forall df,
         let h := harmonize (rename rename_map df) in
         (forall c, In c (missing_columns h) <-> In c required /\ ~ In c (columns h))
         /\ ((exists c, In c required /\ ~ In c (columns h)) ->
             load_frame df
             = Raise (ValueError ("Saknar kolumner: " ++ py_str_list (missing_columns h)
                                  ++ ". Har: " ++ py_str_list (columns h))))
         /\ ((forall c, In c required -> In c (columns h)) ->
             repeated_numeric h = false ->
             load_frame df = Return (normalize h))).
Proof.
  intros p1 p2 p3. unfold load_benchmark. fold p1 p2 p3.
  split; [intros fs' -> -> ->; reflexivity|].
  split; [intros df ->; reflexivity|].
  split; [intros df -> ->; reflexivity|].
  split; [intros df -> -> ->; reflexivity|].
  split; [intros -> -> ->; reflexivity|].
  intros df. split; [apply missing_columns_spec | apply (load_frame_cases df)].
Qed.

Lemma load_benchmark_frame (fs : gmap string frame) (df : DataFrame) :
  load_benchmark fs = Return df ->
  exists raw, df = normalize (harmonize (rename rename_map raw)).
Proof.
  unfold load_benchmark.
  assert (forall d, load_frame d = Return df ->
                    exists raw, df = normalize (harmonize (rename rename_map raw))) as Hf.
  { intros d. unfold load_frame. destruct (missing_columns _); [|discriminate].
    destruct (repeated_numeric _); [discriminate|].
    intros [= <-]. exists d. reflexivity. }
  destruct (fs !! "benchmark_master_clean.parquet"); [apply Hf|].
  destruct (fs !! "benchmark_master_clean.csv"); [apply Hf|].
  destruct (fs !! "benchmark_master.csv"); [apply Hf|].
  discriminate.
Qed.

Lemma replace_001 (s : string) :
  replace {[ "001" := "0" ]} s = if String.eqb s "001" then "0" else s.
Proof.
  unfold replace. rewrite lookup_singleton.
  destruct (String.eqb_spec s "001") as [->|Hne].
  - rewrite decide_True by reflexivity. reflexivity.
  - rewrite decide_False by congruence. reflexivity.
Qed.

Lemma replace_001_eqb (s : string) :
  String.eqb (replace {[ "001" := "0" ]} s) "001" = false
  /\ String.eqb (replace {[ "001" := "0" ]} s) "0"
     = (String.eqb s "0" || String.eqb s "001").
Proof.
  rewrite replace_001. destruct (String.eqb_spec s "001") as [->|Hne].
  - split; reflexivity.
  - split; [apply String.eqb_neq, Hne | rewrite orb_false_r; reflexivity].
Qed.

Lemma filter_map_comm {X Y : Type} (f : X -> Y) (p : Y -> bool) (l : list X) :
  List.filter p (map f l) = map f (List.filter (fun x => p (f x)) l).
Proof.
  induction l as [|x l IH]; [reflexivity|].
  cbn [map List.filter]. destruct (p (f x)); cbn [map]; now rewrite IH.
Qed.

Lemma filter_none {X : Type} (p : X -> bool) (l : list X) :
  (forall x, p x = false) -> List.filter p l = [].
Proof.
  intros H. induction l as [|x l IH]; [reflexivity|].
  cbn [List.filter]. now rewrite H.
Qed.

(** C3, as the code has it: the size class is normalised in the table,
    when it is loaded, and not in the query.  No row of a loaded table
    carries "001"; a query for "0" selects the rows whose raw label was
    "0" or "001" alike; a query for "001" selects no row. *)
Theorem size_class_normalized_at_load (fs : gmap string frame) (df : DataFrame) :
  load_benchmark fs = Return df ->
  (forall r, In r df -> col_size_class r <> "001")
  /\ (forall year sni_3, select df year sni_3 "001" = [])
  /\ exists raw : frame,
      df = normalize raw
      /\ forall year sni_3,
          select df year sni_3 "0"
          = normalize {| columns := columns raw;
                         rows := List.filter (raw_matches (columns raw) year sni_3)
                                             (rows raw) |}.
Proof.
  intros H. apply load_benchmark_frame in H as (raw0 & ->).
  set (raw := harmonize (rename rename_map raw0)).
  assert (forall r, In r (normalize raw) -> String.eqb (col_size_class r) "001" = false) as Hno.
  { intros r Hr. unfold normalize in Hr. apply in_map_iff in Hr as (x & <- & _).
    cbn [col_size_class]. apply replace_001_eqb. }
  split; [intros r Hr; apply String.eqb_neq, Hno, Hr|].
  split.
  - intros year sni_3. unfold select, normalize. rewrite filter_map_comm.
    rewrite filter_none; [reflexivity|].
    intros x. cbn [col_size_class]. rewrite (proj1 (replace_001_eqb _)).
    apply andb_false_r.
  - exists raw. split; [reflexivity|]. intros year sni_3.
    unfold select, normalize. cbn [columns rows]. rewrite filter_map_comm.
    f_equal. apply List.filter_ext. intros x.
    cbn [col_year col_sni_3 col_size_class]. unfold raw_matches.
    rewrite (proj2 (replace_001_eqb _)). reflexivity.
Qed.

End Loader.

(** ** Further properties of the request and of the loader *)

Section More.
Context {B : Builtins}.

(** The request ends in the missing-fields error exactly when the
    revenue is missing, not a number or NaN, or the industry code or the
    size class is empty once stripped; the store is then left as it was. *)
Theorem validation_error_iff (payload : gmap string pyval) (st : store) :
  (fst (berakna payload st) = Return (Error missing_fields) <->
   revenue_of payload = None \/ sni_3_of payload = "" \/ size_class_of payload = "")
  /\ (fst (berakna payload st) = Return (Error missing_fields) ->
      snd (berakna payload st) = st).
Proof.
  assert (revenue_of payload = None \/ sni_3_of payload = "" \/ size_class_of payload = ""
          \/ (exists revenue, revenue_of payload = Some revenue /\ sni_3_of payload <> ""
                              /\ size_class_of payload <> "")) as [H|[H|[H|H]]].
  { destruct (revenue_of payload) as [revenue|]; [|auto].
    destruct (String.eqb_spec (sni_3_of payload) ""); [auto|].
    destruct (String.eqb_spec (size_class_of payload) ""); [auto|].
    right. right. right. exists revenue. auto. }
  1-3: rewrite berakna_invalid by auto; cbn [fst snd];
    (split; [split; auto | intros _; reflexivity]).
  destruct H as (revenue & Hr & Hs & Hc).
  rewrite (berakna_lookup payload st revenue Hr Hs Hc). cbn [fst snd].
  assert (forall o : outcome response,
             (o = Return (Error missing_fields) -> False) ->
             (o = Return (Error missing_fields) <->
              revenue_of payload = None \/ sni_3_of payload = ""
              \/ size_class_of payload = "")
             /\ (o = Return (Error missing_fields) -> after_lookup payload st = st)) as K.
  { intros o Ho. split; [split; [intros E; destruct (Ho E)|]|intros E; destruct (Ho E)].
    intros [E|[E|E]]; congruence. }
  apply K. destruct (sub_of payload (DF st)) as [|r0 sub]; [discriminate|].
  cbv zeta.
  repeat match goal with
         | |- context [match ?o with Some _ => _ | None => _ end] =>
             destruct o; try discriminate
         end.
  apply report_not_Error.
Qed.

(** A valid query that matches no row is answered by the not-found
    error, which names the year, the industry code and the size class. *)
Theorem no_matching_rows (payload : gmap string pyval) (st : store) (revenue : float) :
  revenue_of payload = Some revenue ->
  sni_3_of payload <> "" -> size_class_of payload <> "" ->
  sub_of payload (DF st) = [] ->
  fst (berakna payload st)
  = Return (Error ("No benchmark for year=" ++ year_of payload
                   ++ ", sni_3=" ++ sni_3_of payload
                   ++ ", size_class=" ++ size_class_of payload)).
Proof.
  intros Hr Hs Hc Hsub. rewrite (berakna_lookup payload st revenue Hr Hs Hc), Hsub.
  reflexivity.
Qed.

(** What [to_num] returns is never NaN. *)
Theorem to_num_not_nan (v : pyval) (x : float) :
  to_num v = Some x -> is_nan x = false.
Proof.
  assert (forall o : option float,
             match o with
             | Some y => if is_nan y then None else Some y
             | None => None
             end = Some x -> is_nan x = false) as K.
  { intros [y|]; [|discriminate]. destruct (is_nan y) eqn:E; [discriminate|].
    intros [= <-]. exact E. }
  unfold to_num. destruct v; try discriminate; apply K.
Qed.

(** What a successful response holds: the medians rounded to one decimal,
    the two amounts derived from the revenue and rounded to integers, and
    the low and high gaps rounded to one decimal. *)
Theorem success_fields (payload : gmap string pyval) (st : store) (revenue : float)
    (r : result) :
  let bench := fun col : row -> float => median (map col (sub_of payload (DF st))) in
  let opm := bench col_rorelsemarginal_pct in
  let gaps := snd (estimate_potential_frictionless revenue opm) in
  revenue_of payload = Some revenue ->
  fst (berakna payload st) = Return (Success r) ->
  (rorelsemarginal_pct r = py_round1 opm
   /\ nettomarginal_pct r = py_round1 (bench col_nettomarginal_pct)
   /\ personalkostnad_netto_pct r = py_round1 (bench col_personalkostnad_netto_pct))
  /\ (py_round (revenue * (opm / 100.0)) = Return (median_ebit_kr r)
      /\ py_round (revenue * (bench col_personalkostnad_netto_pct / 100.0))
         = Return (median_personal_kr r))
  /\ (gap_low_pp r = py_round1 (low gaps) /\ gap_high_pp r = py_round1 (high gaps)).
Proof.
  intros bench opm gaps Hr.
  destruct (String.eqb_spec (sni_3_of payload) "") as [Hs|Hs];
    [rewrite berakna_invalid by auto; discriminate|].
  destruct (String.eqb_spec (size_class_of payload) "") as [Hc|Hc];
    [rewrite berakna_invalid by auto; discriminate|].
  rewrite (berakna_lookup payload st revenue Hr Hs Hc). cbn [fst].
  subst gaps opm bench. cbv beta.
  destruct (sub_of payload (DF st)) as [|r0 sub0]; [discriminate|].
  set (sub := r0 :: sub0). cbv beta zeta. rewrite !to_num_float.
  destruct (is_nan (median (map col_rorelsemarginal_pct sub))); [discriminate|].
  destruct (is_nan (median (map col_nettomarginal_pct sub))); [discriminate|].
  destruct (is_nan (median (map col_personalkostnad_netto_pct sub))); [discriminate|].
  intros H. apply report_Success in H as (_ & H1 & H2 & H3 & _). auto.
Qed.

(** Loading drops no row. *)
Theorem load_keeps_rows (raw : frame) (df : DataFrame) :
  load_frame raw = Return df -> length df = length (rows raw).
Proof.
  unfold load_frame. destruct (missing_columns _); [|discriminate].
  destruct (repeated_numeric _); [discriminate|]. intros [= <-].
  unfold normalize, harmonize. rewrite length_map.
  repeat match goal with
         | |- context [if ?b then _ else _] => destruct b
         end;
    unfold add_column, rename; cbn [rows]; rewrite ?length_map; reflexivity.
Qed.

(** The fallbacks never touch a frame that has both target columns. *)
Theorem fallbacks_keep_targets (df : frame) :
  In "size_class" (columns df) -> In "year" (columns df) -> harmonize df = df.
Proof.
  intros Hs Hy. apply list_elem_of_In in Hs, Hy. unfold harmonize.
  assert (bool_decide (("size_class" ∉ columns df) ∧ ("Storleksklass" ∈ columns df))
          = false) as ->
    by (apply bool_decide_eq_false_2; intros [Hn _]; exact (Hn Hs)).
  rewrite bool_decide_eq_false_2 by (intros [Hn _]; exact (Hn Hy)). reflexivity.
Qed.

End More.

(** ** How requests compose and what they read *)

Section Coverage.
Context {B : Builtins}.

(** The answer depends on the table through the selected rows only. *)
Lemma berakna_fst_sub (payload : gmap string pyval) (st st' : store) :
  sub_of payload (DF st) = sub_of payload (DF st') ->
  fst (berakna payload st) = fst (berakna payload st').
Proof.
  intros H.
  destruct (revenue_of payload) as [revenue|] eqn:Hr;
    [|rewrite !berakna_invalid by auto; reflexivity].
  destruct (String.eqb_spec (sni_3_of payload) "") as [Hs|Hs];
    [rewrite !berakna_invalid by auto; reflexivity|].
  destruct (String.eqb_spec (size_class_of payload) "") as [Hc|Hc];
    [rewrite !berakna_invalid by auto; reflexivity|].
  rewrite (berakna_lookup payload st revenue Hr Hs Hc),
    (berakna_lookup payload st' revenue Hr Hs Hc).
  cbn [fst]. rewrite H. reflexivity.
Qed.

Lemma berakna_DF (payload : gmap string pyval) (st : store) :
  DF (snd (berakna payload st)) = DF st.
Proof.
  destruct (revenue_of payload) as [revenue|] eqn:Hr;
    [|rewrite berakna_invalid by auto; reflexivity].
  destruct (String.eqb_spec (sni_3_of payload) "") as [Hs|Hs];
    [rewrite berakna_invalid by auto; reflexivity|].
  destruct (String.eqb_spec (size_class_of payload) "") as [Hc|Hc];
    [rewrite berakna_invalid by auto; reflexivity|].
  rewrite (berakna_lookup payload st revenue Hr Hs Hc). reflexivity.
Qed.

(** Requests are independent: a request is answered after any other
    request, however that one ended, exactly as it is answered before it. *)
Theorem requests_are_independent (first second : gmap string pyval) (st : store) :
  fst (berakna second (snd (berakna first st))) = fst (berakna second st).
Proof. apply berakna_fst_sub. rewrite berakna_DF. reflexivity. Qed.

Lemma select_app (df df' : DataFrame) (year sni_3 size_class : string) :
  select (df ++ df') year sni_3 size_class
  = select df year sni_3 size_class ++ select df' year sni_3 size_class.
Proof. unfold select. apply List.filter_app. Qed.

(** Rows of other segments do not influence the answer: rows that the
    query does not select can be added before and after the table without
    changing what the request returns. *)
Theorem other_segments_do_not_matter (payload : gmap string pyval)
    (before df after : DataFrame) (t t' : list DataFrame) :
  sub_of payload before = [] -> sub_of payload after = [] ->
  fst (berakna payload {| DF := before ++ df ++ after; temps := t |})
  = fst (berakna payload {| DF := df; temps := t' |}).
Proof.
  intros Hb Ha. apply berakna_fst_sub. cbn [DF]. unfold sub_of in *.
  rewrite !select_app, Hb, Ha, app_nil_r. reflexivity.
Qed.

(** A request without the key "year" is the request for the year 2024. *)
Theorem year_defaults_to_2024 (payload : gmap string pyval) (st : store) :
  payload !! "year" = None ->
  berakna payload st = berakna (<["year" := PStr "2024"]> payload) st.
Proof.
  intros H. apply berakna_ext.
  - unfold year_of. rewrite lookup_insert_eq, H. reflexivity.
  - unfold sni_3_of. rewrite lookup_insert_ne by discriminate. reflexivity.
  - unfold size_class_of. rewrite lookup_insert_ne by discriminate. reflexivity.
  - unfold revenue_of. rewrite lookup_insert_ne by discriminate. reflexivity.
Qed.

(** The three key fields are read through [str()]: a value that is not a
    string (a number, a boolean, null) is taken as its text, so that a
    null industry code is the code "None" and not a missing field. *)
Theorem key_fields_read_as_text (payload : gmap string pyval) (st : store)
    (k : string) (v : pyval) :
  k = "year" \/ k = "sni_3" \/ k = "size_class" ->
  payload !! k = Some v ->
  berakna payload st = berakna (<[k := PStr (py_str v)]> payload) st
  /\ (k = "sni_3" -> v = PNone -> sni_3_of payload = "None").
Proof.
  intros Hk Hv. split.
  - apply berakna_ext; unfold year_of, sni_3_of, size_class_of, revenue_of;
      destruct Hk as [ -> | [ -> | -> ] ];
      rewrite ?lookup_insert_eq, ?Hv; rewrite ?lookup_insert_ne by discriminate;
      reflexivity.
  - intros -> ->. unfold sni_3_of. rewrite Hv. reflexivity.
Qed.


(** *** Stripping *)

Lemma rstrip_idem (s : string) : rstrip (rstrip s) = rstrip s.
Proof.
  induction s as [|c s IH]; [reflexivity|].
  cbn [rstrip]. destruct (rstrip s) as [|c' t] eqn:E.
  - destruct (is_space c) eqn:Ec; [reflexivity|].
    cbn [rstrip]. rewrite Ec. reflexivity.
  - cbn [rstrip]. cbn [rstrip] in IH. rewrite IH. reflexivity.
Qed.

(** A string that does not start with a space keeps its first character
    under [rstrip]. *)
Lemma lstrip_rstrip (s : string) : lstrip s = s -> lstrip (rstrip s) = rstrip s.
Proof.
  destruct s as [|c s]; [reflexivity|].
  cbn [lstrip]. destruct (is_space c) eqn:Ec.
  - intros H. exfalso.
    assert (forall t, String.length (lstrip t) <= String.length t)%nat as Hlen.
    { induction t as [|a t IHt]; [reflexivity|]. cbn [lstrip].
      destruct (is_space a); cbn [String.length]; lia. }
    specialize (Hlen s). rewrite H in Hlen. cbn [String.length] in Hlen. lia.
  - intros _. cbn [rstrip]. destruct (rstrip s); rewrite ?Ec; cbn [lstrip];
      rewrite Ec; reflexivity.
Qed.

Lemma lstrip_idem (s : string) : lstrip (lstrip s) = lstrip s.
Proof.
  induction s as [|c s IH]; [reflexivity|].
  cbn [lstrip]. destruct (is_space c) eqn:Ec; [exact IH|].
  cbn [lstrip]. rewrite Ec. reflexivity.
Qed.

Lemma strip_idem (s : string) : strip (strip s) = strip s.
Proof.
  unfold strip. rewrite (lstrip_rstrip (lstrip s) (lstrip_idem s)).
  apply rstrip_idem.
Qed.

(** White space around the industry code and the size class is ignored:
    the request is answered as the one that carries the stripped text.
    (The year is compared as it is sent.) *)
Theorem surrounding_space_ignored (payload : gmap string pyval) (st : store)
    (k a : string) :
  k = "sni_3" \/ k = "size_class" ->
  payload !! k = Some (PStr a) ->
  berakna payload st = berakna (<[k := PStr (strip a)]> payload) st.
Proof.
  intros Hk Ha.
  apply berakna_ext; unfold year_of, sni_3_of, size_class_of, revenue_of;
    destruct Hk as [ -> | -> ];
    rewrite ?lookup_insert_eq, ?Ha; rewrite ?lookup_insert_ne by discriminate;
    try reflexivity; cbn [default from_option id py_str]; symmetry; apply strip_idem.
Qed.

(** *** The exceptions of a request *)

Lemma is_infinity_spec (x : float) (s : bool) :
  Prim2SF x = S754_infinity s -> is_infinity x = true.
Proof.
  intros H. unfold is_infinity. rewrite FloatAxioms.eqb_spec, abs_spec, H.
  replace (Prim2SF infinity) with (S754_infinity false) by (vm_compute; reflexivity).
  reflexivity.
Qed.

(** [round] raises on the floats that are not finite, and on no other. *)
Lemma py_round_Raise (x : float) (e : exn) :
  py_round x = Raise e ->
  (e = OverflowError "cannot convert float infinity to integer"
   \/ e = ValueError "cannot convert float NaN to integer")
  /\ is_finite x = false.
Proof.
  unfold py_round, is_finite. destruct (Prim2SF x) as [s|s| |s m ex] eqn:E;
    try discriminate; intros [= <-].
  - split; [auto|]. rewrite (is_infinity_spec x s E). now rewrite orb_true_r.
  - split; [auto|]. rewrite (proj2 (is_nan_spec x) E). reflexivity.
Qed.

(** An exception of [report] is the exception of [round] on one of the
    floats that it rounds to an integer. *)
Lemma report_Raise revenue antal opm npm staff_pct staff_per e :
  report revenue antal opm npm staff_pct staff_per = Raise e ->
  let pot := fst (estimate_potential_frictionless revenue opm) in
  exists y, py_round y = Raise e
            /\ (antal = Some y \/ staff_per = Some y
                \/ y = (revenue * (opm / 100.0))%float
                \/ y = (revenue * (staff_pct / 100.0))%float
                \/ y = low pot \/ y = mid pot \/ y = high pot).
Proof.
  unfold report. destruct (estimate_potential_frictionless revenue opm) as [pot gaps].
  cbn [fst]. unfold obind, round_opt, obind.
  repeat match goal with
         | |- context [match py_round ?x with Return _ => _ | Raise _ => _ end] =>
             let E := fresh "E" in
             destruct (py_round x) eqn:E;
             [|intros [= <-]; eexists; split; [exact E | auto 10]]
         | |- context [match ?o with Some _ => _ | None => _ end] => destruct o
         end;
    discriminate.
Qed.

(** The only exceptions that leave [berakna] are the two of [round], and
    [round] raises them on a float that is not finite: when a request
    raises, one of the floats that the response rounds to an integer (the
    medians of the number of companies and of the staff cost per employee,
    the two amounts derived from the revenue, the three potentials) is
    infinite or NaN, and the exception is the one of [round] on it.  This
    occurs after validation and lookup only, on a segment that has rows
    and complete medians. *)
Theorem berakna_raises_only_from_round (payload : gmap string pyval) (st : store)
    (e : exn) :
  fst (berakna payload st) = Raise e ->
  let bench := fun col : row -> float => median (map col (sub_of payload (DF st))) in
  (e = OverflowError "cannot convert float infinity to integer"
   \/ e = ValueError "cannot convert float NaN to integer")
  /\ (exists revenue y,
         revenue_of payload = Some revenue
         /\ In y [ bench col_antal_foretag; bench col_personalkostnad_per_anst_tkr;
                   (revenue * (bench col_rorelsemarginal_pct / 100.0))%float;
                   (revenue * (bench col_personalkostnad_netto_pct / 100.0))%float;
                   low (fst (estimate_potential_frictionless
                               revenue (bench col_rorelsemarginal_pct)));
                   mid (fst (estimate_potential_frictionless
                               revenue (bench col_rorelsemarginal_pct)));
                   high (fst (estimate_potential_frictionless
                                revenue (bench col_rorelsemarginal_pct))) ]
         /\ is_finite y = false
         /\ py_round y = Raise e)
  /\ sni_3_of payload <> "" /\ size_class_of payload <> ""
  /\ sub_of payload (DF st) <> []
  /\ is_nan (bench col_rorelsemarginal_pct) = false
  /\ is_nan (bench col_nettomarginal_pct) = false
  /\ is_nan (bench col_personalkostnad_netto_pct) = false.
Proof.
  intros H bench.
  destruct (revenue_of payload) as [revenue|] eqn:Hr;
    [|rewrite berakna_invalid in H by auto; discriminate].
  destruct (String.eqb_spec (sni_3_of payload) "") as [Hs|Hs];
    [rewrite berakna_invalid in H by auto; discriminate|].
  destruct (String.eqb_spec (size_class_of payload) "") as [Hc|Hc];
    [rewrite berakna_invalid in H by auto; discriminate|].
  rewrite (berakna_answer payload st revenue Hr Hs Hc) in H. cbv zeta in H.
  fold bench in H.
  destruct (sub_of payload (DF st)) as [|r0 sub0] eqn:Esub; [discriminate|].
  destruct (is_nan (bench col_rorelsemarginal_pct)) eqn:E1; [discriminate|].
  destruct (is_nan (bench col_nettomarginal_pct)) eqn:E2; [discriminate|].
  destruct (is_nan (bench col_personalkostnad_netto_pct)) eqn:E3; [discriminate|].
  cbn [orb] in H. apply report_Raise in H. cbv zeta in H.
  destruct H as (y & Hy & Hin).
  destruct (py_round_Raise y e Hy) as [He Hfin].
  assert (forall v : float, to_num (PFloat v) = Some y -> v = y) as Hnum.
  { intros v. rewrite to_num_float. destruct (is_nan v); [discriminate|]. congruence. }
  split; [exact He|]. split.
  - exists revenue, y. split; [reflexivity|]. split; [|split; assumption].
    cbn [In].
    destruct Hin as [Hin|[Hin|[Hin|[Hin|[Hin|[Hin|Hin]]]]]];
      [apply Hnum in Hin| apply Hnum in Hin | | | | | ]; auto 10.
  - repeat split; try assumption. discriminate.
Qed.

(** *** A single matching row *)

Lemma median_singleton (x : float) : median [x] = if is_nan x then nan else x.
Proof.
  unfold median, dropna. cbn [List.filter]. destruct (is_nan x); reflexivity.
Qed.

Lemma to_num_median_singleton (x : float) :
  to_num (PFloat (median [x])) = to_num (PFloat x).
Proof.
  rewrite !to_num_float, median_singleton. destruct (is_nan x) eqn:E; [reflexivity|].
  rewrite E. reflexivity.
Qed.

(** When exactly one row matches, the medians are that row's own values:
    the request reports on the row as it stands in the table, and ends in
    the incomplete-data error when one of its three mandatory values is
    null. *)
Theorem single_match_reports_the_row (payload : gmap string pyval) (st : store)
    (revenue : float) (r0 : row) :
  revenue_of payload = Some revenue ->
  sni_3_of payload <> "" -> size_class_of payload <> "" ->
  sub_of payload (DF st) = [r0] ->
  fst (berakna payload st)
  = if is_nan (col_rorelsemarginal_pct r0) || is_nan (col_nettomarginal_pct r0)
       || is_nan (col_personalkostnad_netto_pct r0)
    then Return (Error incomplete)
    else report revenue (to_num (PFloat (col_antal_foretag r0)))
                (col_rorelsemarginal_pct r0) (col_nettomarginal_pct r0)
                (col_personalkostnad_netto_pct r0)
                (to_num (PFloat (col_personalkostnad_per_anst_tkr r0))).
Proof.
  intros Hr Hs Hc Hsub.
  rewrite (berakna_lookup payload st revenue Hr Hs Hc), Hsub. cbn [fst map].
  cbv zeta. rewrite !to_num_median_singleton, !to_num_float.
  destruct (is_nan (col_rorelsemarginal_pct r0)); [reflexivity|].
  destruct (is_nan (col_nettomarginal_pct r0)); [reflexivity|].
  destruct (is_nan (col_personalkostnad_netto_pct r0)); reflexivity.
Qed.

(** For an odd number of non-null values the median is one of them. *)
Theorem odd_median_is_observed (l : list float) :
  Nat.odd (length (dropna l)) = true -> In (median l) (dropna l).
Proof.
  intros Hodd. unfold median.
  assert (length (sort (dropna l)) = length (dropna l)) as Hlen
    by (apply Permutation_length, sort_perm).
  rewrite Hlen, Hodd.
  destruct (length (dropna l)) as [|n] eqn:En; [discriminate|].
  change (S n =? 0)%nat with false. cbv iota.
  apply (Permutation_in _ (sort_perm (dropna l))).
  apply nth_In. rewrite Hlen.
  apply Nat.Div0.div_lt_upper_bound. lia.
Qed.


(** *** A revenue that is not positive *)

Lemma binary_round_aux_sign (s : bool) (m e : Z) (l : location) :
  (if s then SF_not_positive else SF_not_negative)
    (binary_round_aux prec emax s m e l) = true.
Proof.
  unfold binary_round_aux.
  destruct (shr_fexp prec emax m e l) as [mrs e'].
  destruct (shr_fexp prec emax _ e' loc_Exact) as [mrs2 e2].
  destruct (shr_m mrs2); [| destruct (e2 <=? emax - prec) |]; destruct s; reflexivity.
Qed.

Lemma SFmul_not_positive (x y : spec_float) :
  SF_not_positive x = true -> SF_not_negative y = true ->
  SF_not_positive (SFmul prec emax x y) = true.
Proof.
  destruct x as [[]|[]| |[] mx ex], y as [[]|[]| |[] my ey];
    cbn [SF_not_positive SF_not_negative SFmul xorb negb]; intros Hx Hy;
    try reflexivity; try discriminate.
  apply (binary_round_aux_sign true).
Qed.

Lemma SFmul_not_negative (x y : spec_float) :
  SF_not_negative x = true -> SF_not_negative y = true ->
  SF_not_negative (SFmul prec emax x y) = true.
Proof.
  destruct x as [[]|[]| |[] mx ex], y as [[]|[]| |[] my ey];
    cbn [SF_not_negative SFmul xorb negb]; intros Hx Hy;
    try reflexivity; try discriminate.
  apply (binary_round_aux_sign false).
Qed.

Lemma SFdiv_not_negative (x : spec_float) (my : positive) (ey : Z) :
  SF_not_negative x = true ->
  SF_not_negative (SFdiv prec emax x (S754_finite false my ey)) = true.
Proof.
  destruct x as [[]|[]| |[] mx ex];
    cbn [SF_not_negative SFdiv xorb negb]; intros Hx;
    try reflexivity; try discriminate.
  destruct (SFdiv_core_binary prec emax (Z.pos mx) ex (Z.pos my) ey) as [[mz ez] lz].
  apply (binary_round_aux_sign false).
Qed.

Lemma not_positive_ltb (y : float) :
  SF_not_positive (Prim2SF y) = true -> (0 <? y)%float = false.
Proof.
  rewrite FloatAxioms.ltb_spec.
  replace (Prim2SF 0) with (S754_zero false) by (vm_compute; reflexivity).
  unfold SFltb. destruct (Prim2SF y) as [s|s| |s m e]; cbn [SF_not_positive SFcompare];
    try reflexivity; intros ->; reflexivity.
Qed.

Lemma leb_zero_not_positive (x : float) :
  (x <=? 0)%float = true -> SF_not_positive (Prim2SF x) = true.
Proof.
  rewrite FloatAxioms.leb_spec.
  replace (Prim2SF 0) with (S754_zero false) by (vm_compute; reflexivity).
  unfold SFleb. destruct (Prim2SF x) as [s|s| |s m e]; cbn [SF_not_positive SFcompare];
    try reflexivity; destruct s; try reflexivity; discriminate.
Qed.

(** A potential of a revenue that is not positive is zero. *)
Lemma potential_zero (revenue v : float) :
  (revenue <=? 0)%float = true -> SF_not_negative (Prim2SF v) = true ->
  py_max 0.0 (revenue * (v / 100.0)) = 0%float.
Proof.
  intros Hr Hv. unfold py_max. rewrite not_positive_ltb; [reflexivity|].
  rewrite mul_spec. apply SFmul_not_positive; [apply leb_zero_not_positive, Hr|].
  rewrite div_spec.
  assert (exists m e, Prim2SF 100.0 = S754_finite false m e) as (m & e & ->)
    by (vm_compute; eauto).
  apply SFdiv_not_negative, Hv.
Qed.

Lemma gaps_not_negative (revenue opm : float) :
  let gaps := snd (estimate_potential_frictionless revenue opm) in
  SF_not_negative (Prim2SF (low gaps)) = true
  /\ SF_not_negative (Prim2SF (mid gaps)) = true
  /\ SF_not_negative (Prim2SF (high gaps)) = true.
Proof.
  unfold estimate_potential_frictionless. cbn [snd low mid high].
  destruct (clamp_cases (opm * 0.30)) as ((Hlo & Hhi) & _).
  set (base := py_max 0.5 (py_min 6 (opm * 0.30))) in *.
  destruct (gap_range base Hlo Hhi) as (m & e & Hb & _).
  assert (SF_not_negative (Prim2SF base) = true) as Hn by (rewrite Hb; reflexivity).
  repeat split; [ | exact Hn | ];
    rewrite mul_spec; apply SFmul_not_negative; try exact Hn; vm_compute; reflexivity.
Qed.

(** A revenue that is zero or negative gives the potentials 0.0 in all
    three tiers, whatever the margin, and a successful response to it
    reports 0 for each of them. *)
Theorem nonpositive_revenue_zero_potential (revenue opm : float) :
  (revenue <=? 0)%float = true ->
  fst (estimate_potential_frictionless revenue opm)
  = {| low := 0; mid := 0; high := 0 |}
  /\ (forall (payload : gmap string pyval) (st : store) (r : result),
         revenue_of payload = Some revenue ->
         fst (berakna payload st) = Return (Success r) ->
         potential_low_kr r = 0 /\ potential_mid_kr r = 0 /\ potential_high_kr r = 0).
Proof.
  intros Hr.
  assert (forall m, fst (estimate_potential_frictionless revenue m)
                    = {| low := 0; mid := 0; high := 0 |}) as Hz.
  { intros m. pose proof (gaps_not_negative revenue m) as H.
    unfold estimate_potential_frictionless in *. cbv zeta in H.
    cbn [snd low mid high] in H. destruct H as (Hl & Hm & Hh).
    cbv zeta. unfold tiers_map. cbn [fst low mid high].
    f_equal; apply potential_zero; assumption. }
  split; [apply Hz|].
  intros payload st r Hrev H.
  apply berakna_Success in H as (revenue' & antal & m & npm & sp & sper & Hrev' & H).
  assert (revenue' = revenue) as -> by congruence.
  apply report_Success in H as (_ & _ & _ & _ & Hl & Hm & Hh).
  rewrite Hz in Hl, Hm, Hh. cbn [low mid high] in Hl, Hm, Hh.
  replace (py_round 0) with (Return 0 : outcome Z) in Hl, Hm, Hh
    by (vm_compute; reflexivity).
  repeat split; congruence.
Qed.

End Coverage.

(** ** Which column of the file feeds which field *)

Section Cells.
Context {B : Builtins}.

Lemma rename_map_lookup (k : string) :
  rename_map !! k
  = if String.eqb k "0000028K" then Some "antal_foretag"
    else if String.eqb k "0000032G" then Some "rorelsemarginal_pct"
    else if String.eqb k "0000032H" then Some "nettomarginal_pct"
    else if String.eqb k "0000033Z" then Some "personalkostnad_netto_pct"
    else if String.eqb k "00000355" then Some "personalkostnad_per_anst_tkr"
    else None.
Proof.
  unfold rename_map.
  repeat match goal with
         | |- context [String.eqb k ?c] =>
             destruct (String.eqb_spec k c) as [->|?]; [vm_compute; reflexivity|]
         end.
  rewrite !lookup_insert_ne by congruence. apply lookup_singleton_ne. congruence.
Qed.

(** The label that [rename] gives to a column. *)
Lemma renamed_cases (k : string) :
  (rename_map !! k = None /\ default k (rename_map !! k) = k)
  \/ (exists name, rename_map !! k = Some name /\ default k (rename_map !! k) = name
                   /\ In name numeric /\ ~ In k required
                   /\ k <> "Tid" /\ k <> "Storleksklass").
Proof.
  rewrite rename_map_lookup.
  repeat match goal with
         | |- context [String.eqb k ?c] =>
             destruct (String.eqb_spec k c) as [->|?];
             [right; eexists; split; [reflexivity|]; split; [reflexivity|];
              split; [vm_compute; tauto|];
              split; [intros H; vm_compute in H; intuition discriminate|];
              split; discriminate|]
         end.
  left. split; reflexivity.
Qed.

Lemma cell_map (f : string -> string) (cols : list string) (r : list pyval)
    (c c' : string) :
  (forall k, In k cols -> String.eqb (f k) c' = String.eqb k c) ->
  cell (map f cols) r c' = cell cols r c.
Proof.
  revert r. induction cols as [|k cols IH]; intros r H; [reflexivity|].
  destruct r as [|v r]; [reflexivity|]. cbn [map cell].
  rewrite H by (left; reflexivity). destruct (String.eqb k c); [reflexivity|].
  apply IH. intros k' Hk'. apply H. right. exact Hk'.
Qed.

(** A column that carries one of the five codes is read under the name
    the code is renamed to, when the file has no column of that name. *)
Lemma cell_rename_code (cols : list string) (r : list pyval) (code name : string) :
  rename_map !! code = Some name -> ~ In name cols ->
  cell (columns (rename rename_map {| columns := cols; rows := [] |})) r name
  = cell cols r code.
Proof.
  intros Hc Hn. cbn [rename columns]. apply cell_map. intros k Hk.
  assert (k <> name) as Hkn by (intros ->; exact (Hn Hk)).
  rewrite rename_map_lookup in Hc.
  rewrite (rename_map_lookup k).
  repeat match goal with
         | |- context [String.eqb k ?c] => destruct (String.eqb_spec k c) as [->|?]
         end;
    repeat match type of Hc with
           | context [String.eqb code ?c] => destruct (String.eqb_spec code c) as [->|?]
           end;
    try discriminate; injection Hc as <-;
    cbn [default from_option id];
    try reflexivity;
    repeat match goal with
           | |- context [String.eqb ?a ?b] =>
               destruct (String.eqb_spec a b); try congruence
           end.
Qed.

(** A column whose label is no code and no numeric name keeps its label. *)
Lemma cell_rename_other (cols : list string) (r : list pyval) (c : string) :
  rename_map !! c = None -> ~ In c numeric ->
  cell (columns (rename rename_map {| columns := cols; rows := [] |})) r c
  = cell cols r c.
Proof.
  intros Hc Hn. cbn [rename columns]. apply cell_map. intros k _.
  destruct (renamed_cases k) as [[_ ->]|(name & Hk & -> & Hname & _)]; [reflexivity|].
  destruct (String.eqb_spec name c) as [->|_]; [destruct (Hn Hname)|].
  destruct (String.eqb_spec k c) as [->|_]; [congruence | reflexivity].
Qed.

Lemma cell_app_old (cols : list string) (r : list pyval) (c n : string) (x : pyval) :
  length r = length cols -> In c cols ->
  cell (cols ++ [n]) (r ++ [x]) c = cell cols r c.
Proof.
  revert r. induction cols as [|k cols IH]; intros r Hlen Hin; [destruct Hin|].
  destruct r as [|v r]; [discriminate|]. cbn [app cell].
  destruct (String.eqb_spec k c) as [_|Hne]; [reflexivity|].
  apply IH; [now injection Hlen | destruct Hin; [contradiction | assumption]].
Qed.

Lemma cell_app_new (cols : list string) (r : list pyval) (n : string) (x : pyval) :
  length r = length cols -> ~ In n cols ->
  cell (cols ++ [n]) (r ++ [x]) n = x.
Proof.
  revert r. induction cols as [|k cols IH]; intros r Hlen Hin.
  - destruct r; [|discriminate]. cbn [app cell]. now rewrite String.eqb_refl.
  - destruct r as [|v r]; [discriminate|]. cbn [app cell].
    destruct (String.eqb_spec k n) as [->|_]; [destruct Hin; left; reflexivity|].
    apply IH; [now injection Hlen | intros H; apply Hin; right; exact H].
Qed.

Lemma in_renamed (cols : list string) (c : string) :
  In c (map (fun k => default k (rename_map !! k)) cols) ->
  In c cols \/ In c numeric.
Proof.
  intros H. apply in_map_iff in H as (k & <- & Hk).
  destruct (renamed_cases k) as [[_ ->]|(name & _ & -> & Hname & _)]; auto.
Qed.

Lemma renamed_in (cols : list string) (c : string) :
  rename_map !! c = None -> In c cols ->
  In c (map (fun k => default k (rename_map !! k)) cols).
Proof.
  intros Hc Hin. apply in_map_iff. exists c. rewrite Hc. auto.
Qed.

Lemma harmonize_id (df : frame) :
  In "size_class" (columns df) -> In "year" (columns df) -> harmonize df = df.
Proof.
  intros Hs Hy. apply list_elem_of_In in Hs, Hy. unfold harmonize.
  assert (bool_decide (("size_class" ∉ columns df) ∧ ("Storleksklass" ∈ columns df))
          = false) as ->
    by (apply bool_decide_eq_false_2; intros [Hn _]; exact (Hn Hs)).
  rewrite bool_decide_eq_false_2 by (intros [Hn _]; exact (Hn Hy)). reflexivity.
Qed.

Lemma required_not_renamed (c : string) : In c required -> rename_map !! c = None.
Proof.
  intros H. destruct (renamed_cases c) as [[Hc _]|(name & _ & _ & _ & Hn & _)];
    [exact Hc | destruct (Hn H)].
Qed.

(** A file that has the eight columns under their names still has them
    after renaming and fallbacks, which add no column. *)
Lemma harmonize_rename_columns (raw : frame) :
  (forall c, In c required -> In c (columns raw)) ->
  harmonize (rename rename_map raw) = rename rename_map raw
  /\ (forall c, In c required -> In c (columns (rename rename_map raw))).
Proof.
  intros Hreq.
  assert (forall c, In c required -> In c (columns (rename rename_map raw))) as H.
  { intros c Hc. cbn [rename columns].
    apply renamed_in; [apply required_not_renamed, Hc | apply Hreq, Hc]. }
  split; [|exact H].
  apply harmonize_id; apply H; vm_compute; tauto.
Qed.

Lemma count_occ_le_1 (l : list string) (c : string) :
  List.NoDup l -> (1 <? count_occ string_dec l c)%nat = false.
Proof.
  intros H. apply Nat.ltb_ge.
  exact (proj1 (NoDup_count_occ string_dec l) H c).
Qed.

Lemma count_occ_map_two (f : string -> string) (l : list string) (a b : string) :
  In a l -> In b l -> a <> b -> f a = f b ->
  (2 <= count_occ string_dec (map f l) (f a))%nat.
Proof.
  intros Ha Hb Hab Hf. induction l as [|k l IH]; [destruct Ha|].
  assert (forall x, In x l -> f x = f a ->
                    (1 <= count_occ string_dec (map f l) (f a))%nat) as Hone.
  { intros x Hx Hfx. apply (count_occ_In string_dec). rewrite <- Hfx.
    apply in_map, Hx. }
  cbn [map count_occ].
  destruct Ha as [->|Ha], Hb as [->|Hb].
  - congruence.
  - destruct (string_dec (f a) (f a)) as [_|Hn]; [|destruct (Hn eq_refl)].
    specialize (Hone b Hb (eq_sym Hf)). lia.
  - rewrite <- Hf. destruct (string_dec (f a) (f a)) as [_|Hn]; [|destruct (Hn eq_refl)].
    specialize (Hone a Ha eq_refl). lia.
  - specialize (IH Ha Hb). destruct (string_dec (f k) (f a)); lia.
Qed.

(** A clean file is read as it is: when the file has the eight columns
    under their names, none of the five codes, and no label twice, the
    table is the file's rows with the types normalised, each field taken
    from the column of its own name. *)
Theorem clean_file_loaded_as_is (raw : frame) :
  (forall c, In c required -> In c (columns raw)) ->
  (forall c, In c (columns raw) -> rename_map !! c = None) ->
  List.NoDup (columns raw) ->
  load_frame raw = Return (normalize raw).
Proof.
  intros Hreq Hcodes Hnd.
  assert (rename rename_map raw = raw) as Hren.
  { destruct raw as [cols rws]. unfold rename. cbn [columns rows] in *. f_equal.
    rewrite <- (map_id cols) at 2. apply map_ext_in. intros c Hc.
    rewrite (Hcodes c Hc). reflexivity. }
  destruct (harmonize_rename_columns raw Hreq) as [Hh Hall].
  destruct (load_frame_cases raw) as [_ Hok]. cbv zeta in Hok.
  rewrite Hh, Hren in Hok. apply Hok.
  - rewrite Hren in Hall. exact Hall.
  - unfold repeated_numeric, numeric. cbn [existsb].
    rewrite !count_occ_le_1 by exact Hnd. reflexivity.
Qed.

(** A file that has the eight columns under their names and, besides, a
    numeric column under its code as well fails to load: renaming gives
    two columns the same name, and the conversion to numbers raises a
    [TypeError], not the [ValueError] of a missing column. *)
Theorem code_beside_name_fails (raw : frame) (code name : string) :
  (forall c, In c required -> In c (columns raw)) ->
  rename_map !! code = Some name ->
  In code (columns raw) ->
  load_frame raw = Raise (TypeError "arg must be a list, tuple, 1-d array, or Series").
Proof.
  intros Hreq Hcode Hin.
  destruct (harmonize_rename_columns raw Hreq) as [Hh Hall].
  destruct (renamed_cases code) as [[Hnone _]|(name' & Hn' & Hd & Hnum & Hnreq & _)];
    [congruence|].
  assert (name' = name) as -> by congruence.
  assert (In name required) as Hnr.
  { revert Hnum. vm_compute. tauto. }
  assert (code <> name) as Hne by (intros ->; exact (Hnreq Hnr)).
  assert (default name (rename_map !! name) = name) as Hdn
    by (rewrite (required_not_renamed name Hnr); reflexivity).
  assert (repeated_numeric (rename rename_map raw) = true) as Hrep.
  { unfold repeated_numeric. apply existsb_exists. exists name. split; [exact Hnum|].
    apply Nat.ltb_lt. cbn [rename columns].
    pose proof (count_occ_map_two (fun k => default k (rename_map !! k))
                  (columns raw) code name Hin (Hreq name Hnr) Hne) as H2.
    cbv beta in H2. rewrite Hd, Hdn in H2. specialize (H2 eq_refl). lia. }
  unfold load_frame. rewrite Hh.
  destruct (missing_columns (rename rename_map raw)) as [|c0 l] eqn:E.
  - rewrite Hrep. reflexivity.
  - exfalso. assert (In c0 (missing_columns (rename rename_map raw))) as Hc
      by (rewrite E; left; reflexivity).
    apply missing_columns_spec in Hc as [Hr Hn]. apply Hn, Hall, Hr.
Qed.

(** A raw export is read by its codes: when the file has none of the
    internal names except [sni_3], every row has one cell per column, and
    the load succeeds, then each row of the table takes its year from
    [Tid], its size class from [Storleksklass] (with "001" turned into
    "0"), and its five numbers from the columns of the five codes. *)
Theorem raw_export_loaded_by_codes (raw : frame) (df : DataFrame) :
  Forall (fun r => length r = length (columns raw)) (rows raw) ->
  ~ In "year" (columns raw) -> ~ In "size_class" (columns raw) ->
  (forall c, In c numeric -> ~ In c (columns raw)) ->
  load_frame raw = Return df ->
  df = map (fun r =>
              let at_ := cell (columns raw) r in
              {| col_year := py_str (at_ "Tid");
                 col_sni_3 := py_str (at_ "sni_3");
                 col_size_class := replace {[ "001" := "0" ]} (py_str (at_ "Storleksklass"));
                 col_antal_foretag := to_numeric (at_ "0000028K");
                 col_rorelsemarginal_pct := to_numeric (at_ "0000032G");
                 col_nettomarginal_pct := to_numeric (at_ "0000032H");
                 col_personalkostnad_netto_pct := to_numeric (at_ "0000033Z");
                 col_personalkostnad_per_anst_tkr := to_numeric (at_ "00000355") |})
           (rows raw).
Proof.
  intros Hwf Hy Hs Hnum.
  unfold load_frame.
  destruct (missing_columns (harmonize (rename rename_map raw))) as [|c0 l0] eqn:Em;
    [|discriminate].
  destruct (repeated_numeric _); [discriminate|]. intros [= <-].
  assert (forall c, In c required -> In c (columns (harmonize (rename rename_map raw))))
    as Hall.
  { intros c Hc.
    destruct (in_dec string_dec c (columns (harmonize (rename rename_map raw))))
      as [Hin|Hnin]; [exact Hin|].
    assert (In c (missing_columns (harmonize (rename rename_map raw)))) as Hm
      by (apply missing_columns_spec; auto).
    rewrite Em in Hm. destruct Hm. }
  clear Em.
  destruct raw as [cols rws]. cbn [columns rows] in *.
  set (ren := fun k : string => default k (rename_map !! k)) in *.
  set (cols' := map ren cols).
  assert (forall c, ~ In c numeric -> In c cols' -> In c cols) as Hback.
  { intros c Hc Hin. destruct (in_renamed cols c Hin); [assumption | contradiction]. }
  assert (~ In "size_class" cols') as Hs'
    by (intros H; apply Hs, Hback; [vm_compute; intuition discriminate | exact H]).
  assert (~ In "year" cols') as Hy'
    by (intros H; apply Hy, Hback; [vm_compute; intuition discriminate | exact H]).
  assert (forall r c, cell cols' r c
                      = cell (columns (rename rename_map {| columns := cols; rows := [] |}))
                             r c) as Hcell by reflexivity.
  unfold harmonize, rename in Hall |- *. cbn [columns rows] in Hall |- *.
  fold ren in Hall |- *. fold cols' in Hall |- *.
  destruct (bool_decide (("size_class" ∉ cols') ∧ ("Storleksklass" ∈ cols'))) eqn:E1.
  2:{ exfalso. cbn [columns] in Hall.
      assert (In "size_class" required) as Hr by (vm_compute; tauto).
      apply Hall in Hr.
      destruct (bool_decide _) in Hr; cbn [add_column columns] in Hr;
        [apply in_app_or in Hr as [Hr|[Hr|[]]]; [exact (Hs' Hr) | discriminate]
        | exact (Hs' Hr)]. }
  apply bool_decide_eq_true in E1 as [_ Hst]. apply list_elem_of_In in Hst.
  cbn [add_column columns rows] in Hall |- *.
  assert (~ In "year" (cols' ++ ["size_class"])) as Hy''
    by (intros H; apply in_app_or in H as [H|[H|[]]]; [exact (Hy' H) | discriminate]).
  destruct (bool_decide (("year" ∉ cols' ++ ["size_class"])
                         ∧ ("Tid" ∈ cols' ++ ["size_class"]))) eqn:E2.
  2:{ exfalso. cbn [columns] in Hall.
      assert (In "year" required) as Hr by (vm_compute; tauto).
      exact (Hy'' (Hall _ Hr)). }
  apply bool_decide_eq_true in E2 as [_ Htid]. apply list_elem_of_In in Htid.
  apply in_app_or in Htid as [Htid|[Htid|[]]]; [|discriminate].
  cbn [add_column columns rows] in Hall |- *.
  assert (forall c, In c required -> c <> "size_class" -> c <> "year" -> In c cols')
    as Hin.
  { intros c Hc H1 H2. apply Hall in Hc.
    apply in_app_or in Hc as [Hc|[Hc|[]]]; [|congruence].
    apply in_app_or in Hc as [Hc|[Hc|[]]]; [exact Hc | congruence]. }
  unfold normalize, add_column. cbn [columns rows]. rewrite !map_map.
  apply map_ext_in. intros r Hr.
  assert (length r = length cols') as Hlen.
  { unfold cols'. rewrite length_map. exact (proj1 (List.Forall_forall _ _) Hwf r Hr). }
  assert (length (r ++ [cell cols' r "Storleksklass"]) = length (cols' ++ ["size_class"]))
    as Hlen' by (rewrite !length_app, Hlen; reflexivity).
  assert (forall c, In c cols' ->
                    cell ((cols' ++ ["size_class"]) ++ ["year"])
                         ((r ++ [cell cols' r "Storleksklass"])
                          ++ [cell (cols' ++ ["size_class"])
                                   (r ++ [cell cols' r "Storleksklass"]) "Tid"]) c
                    = cell cols' r c) as Hold.
  { intros c Hc. rewrite cell_app_old by (try exact Hlen'; apply in_or_app; auto).
    apply cell_app_old; assumption. }
  assert (forall code name, rename_map !! code = Some name -> In name required ->
                            name <> "size_class" -> name <> "year" -> In name numeric ->
                            cell ((cols' ++ ["size_class"]) ++ ["year"])
                                 ((r ++ [cell cols' r "Storleksklass"])
                                  ++ [cell (cols' ++ ["size_class"])
                                           (r ++ [cell cols' r "Storleksklass"]) "Tid"]) name
                            = cell cols r code) as Hcode.
  { intros code name Hc Hreq H1 H2 Hn. rewrite Hold by (apply Hin; assumption).
    rewrite Hcell. apply cell_rename_code; [exact Hc | apply Hnum, Hn]. }
  cbv zeta. f_equal.
  - f_equal. rewrite cell_app_new by assumption.
    rewrite cell_app_old by assumption.
    rewrite Hcell. apply cell_rename_other; [reflexivity | vm_compute; intuition discriminate].
  - f_equal. rewrite Hold by (apply Hin; [vm_compute; tauto | discriminate | discriminate]).
    rewrite Hcell. apply cell_rename_other; [reflexivity | vm_compute; intuition discriminate].
  - f_equal. f_equal.
    rewrite cell_app_old by (try exact Hlen'; apply in_or_app; right; left; reflexivity).
    rewrite cell_app_new by assumption.
    rewrite Hcell. apply cell_rename_other; [reflexivity | vm_compute; intuition discriminate].
  - f_equal. apply Hcode; try discriminate; try reflexivity; vm_compute; tauto.
  - f_equal. apply Hcode; try discriminate; try reflexivity; vm_compute; tauto.
  - f_equal. apply Hcode; try discriminate; try reflexivity; vm_compute; tauto.
  - f_equal. apply Hcode; try discriminate; try reflexivity; vm_compute; tauto.
  - f_equal. apply Hcode; try discriminate; try reflexivity; vm_compute; tauto.
Qed.

(** *** The size class "001" after startup *)

Lemma select_001_nil (fs : gmap string frame) (df : DataFrame) (year sni_3 : string) :
  load_benchmark fs = Return df -> select df year sni_3 "001" = [].
Proof.
  intros H. apply load_benchmark_frame in H as (raw & ->).
  unfold select, normalize. rewrite filter_map_comm.
  rewrite filter_none; [reflexivity|].
  intros x. cbn [col_size_class]. rewrite (proj1 (replace_001_eqb _)).
  apply andb_false_r.
Qed.

(** A server that has started answers every valid request for the size
    class "001" with the not-found error, whatever the file held: the
    label was turned into "0" in the table and is not turned in the query. *)
Theorem query_001_finds_nothing (fs : gmap string frame) (st : store)
    (payload : gmap string pyval) (revenue : float) :
  startup fs = Return st ->
  revenue_of payload = Some revenue ->
  sni_3_of payload <> "" ->
  size_class_of payload = "001" ->
  fst (berakna payload st)
  = Return (Error ("No benchmark for year=" ++ year_of payload
                   ++ ", sni_3=" ++ sni_3_of payload ++ ", size_class=001")).
Proof.
  intros Hst Hr Hs Hc. unfold startup in Hst.
  destruct (load_benchmark fs) as [df|e] eqn:El; [|discriminate].
  injection Hst as <-.
  assert (size_class_of payload <> "") as Hc' by (rewrite Hc; discriminate).
  rewrite (berakna_lookup payload _ revenue Hr Hs Hc'). cbn [fst DF].
  unfold sub_of. rewrite Hc, (select_001_nil fs df _ _ El). reflexivity.
Qed.

End Cells.

(** ** The range of the low and the high gap *)

Lemma SFleb_finite_pos_inv m1 e1 m2 e2 :
  SFleb (S754_finite false m1 e1) (S754_finite false m2 e2) = true ->
  e1 < e2 \/ (e1 = e2 /\ Z.pos m1 <= Z.pos m2).
Proof.
  unfold SFleb. cbn [SFcompare].
  destruct (Z.compare_spec e1 e2) as [->|Hlt|Hgt]; [|auto|discriminate].
  change (Pos.compare_cont Eq m1 m2) with (Pos.compare m1 m2).
  destruct (Pos.compare_spec m1 m2) as [->|Hlt|Hgt]; try discriminate; intros _; right; lia.
Qed.

(** The product of [mul_three_round], with the mantissa it rounds to. *)
Lemma mul_three_bounds (m : positive) (e c : Z) :
  2 ^ 52 <= Z.pos m < 2 ^ 53 -> -53 <= e <= -50 -> -53 <= c <= -52 ->
  exists r e',
    binary_round_aux prec emax false (Z.pos (m * 6755399441055744)) (e + c) loc_Exact
    = S754_finite false r e'
    /\ ((e' = e + c + 52 /\ Z.pos m * 3 / 2 <= Z.pos r <= Z.pos m * 3 / 2 + 1)
        \/ (e' = e + c + 53 /\ 2 ^ 52 <= Z.pos r <= Z.pos m * 3 / 4 + 1)).
Proof.
  intros Hm He Hc. rewrite three_mantissa.
  assert (forall k, 0 < k -> Z.pos m * 3 * 2 ^ 51 / (k * 2 ^ 51) = Z.pos m * 3 / k) as Hdiv
    by (intros k Hk; apply Z.div_mul_cancel_r; lia).
  destruct (Z_lt_le_dec (Z.pos m * 3) (2 ^ 54)) as [Hlt|Hge].
  - assert (Hp : 2 ^ (105 - 1) <= Z.pos m * 3 * 2 ^ 51 < 2 ^ 105).
    { change (2 ^ (105 - 1)) with (2 ^ 53 * 2 ^ 51). change (2 ^ 105) with (2 ^ 54 * 2 ^ 51).
      change (2 ^ 52) with 4503599627370496 in Hm. change (2 ^ 53) with 9007199254740992 in *.
      change (2 ^ 54) with 18014398509481984 in *. change (2 ^ 51) with 2251799813685248. lia. }
    pose proof (Hdiv 2 ltac:(lia)) as Hq. change (2 * 2 ^ 51) with (2 ^ (105 - 53)) in Hq.
    destruct (Z.pos m * 3 * 2 ^ 51) as [|p|p] eqn:Ep; try lia.
    destruct (binary_round_aux_normal p (e + c) 105 Hp ltac:(lia) ltac:(lia) ltac:(lia))
      as (r & e' & -> & H).
    exists r, e'. split; [reflexivity|]. rewrite Hq in H.
    pose proof (Z.div_le_upper_bound (Z.pos m * 3) 2 (2 ^ 53) ltac:(lia)) as Hu.
    pose proof (Z.div_le_mono (Z.pos m * 3 - 3) (Z.pos m * 3) 4 ltac:(lia) ltac:(lia)) as Hmono.
    pose proof (Z.div_mod (Z.pos m * 3) 2 ltac:(lia)) as D2.
    pose proof (Z.mod_pos_bound (Z.pos m * 3) 2 ltac:(lia)) as B2.
    pose proof (Z.div_mod (Z.pos m * 3) 4 ltac:(lia)) as D4.
    pose proof (Z.mod_pos_bound (Z.pos m * 3) 4 ltac:(lia)) as B4.
    change (2 ^ 52) with 4503599627370496 in *. change (2 ^ 53) with 9007199254740992 in *.
    change (2 ^ 54) with 18014398509481984 in *.
    destruct H as [(-> & Hr & _)|(-> & Hr & Hcarry)].
    + left. split; lia.
    + right. split; lia.
  - assert (Hp : 2 ^ (106 - 1) <= Z.pos m * 3 * 2 ^ 51 < 2 ^ 106).
    { change (2 ^ (106 - 1)) with (2 ^ 54 * 2 ^ 51). change (2 ^ 106) with (2 ^ 55 * 2 ^ 51).
      change (2 ^ 52) with 4503599627370496 in Hm. change (2 ^ 53) with 9007199254740992 in *.
      change (2 ^ 54) with 18014398509481984 in *. change (2 ^ 55) with 36028797018963968.
      change (2 ^ 51) with 2251799813685248. lia. }
    pose proof (Hdiv 4 ltac:(lia)) as Hq. change (4 * 2 ^ 51) with (2 ^ (106 - 53)) in Hq.
    destruct (Z.pos m * 3 * 2 ^ 51) as [|p|p] eqn:Ep; try lia.
    destruct (binary_round_aux_normal p (e + c) 106 Hp ltac:(lia) ltac:(lia) ltac:(lia))
      as (r & e' & -> & H).
    exists r, e'. split; [reflexivity|]. rewrite Hq in H.
    pose proof (Z.div_mod (Z.pos m * 3) 4 ltac:(lia)) as D4.
    pose proof (Z.mod_pos_bound (Z.pos m * 3) 4 ltac:(lia)) as B4.
    change (2 ^ 52) with 4503599627370496 in *. change (2 ^ 53) with 9007199254740992 in *.
    change (2 ^ 54) with 18014398509481984 in *.
    destruct H as [(-> & Hr & _)|(-> & _ & Hcarry)].
    + right. split; lia.
    + exfalso. lia.
Qed.

(** The base gap times 0.75 or 1.5 stays between the products of the two
    ends of the base range. *)
Lemma scaled_gap_range (b k lo hi : float) (c : Z) :
  -53 <= c <= -52 ->
  Prim2SF k = S754_finite false 6755399441055744 c ->
  Prim2SF lo = S754_finite false 6755399441055744 (c - 1) ->
  Prim2SF hi = S754_finite false 5066549580791808 (c + 3) ->
  (6 * k)%float = hi ->
  (0.5 <=? b)%float = true -> (b <=? 6)%float = true ->
  (lo <=? b * k)%float = true /\ (b * k <=? hi)%float = true.
Proof.
  intros Hc Hk Hlo Hhi H6 Hb1 Hb2.
  destruct (gap_range b Hb1 Hb2) as (m & e & Hb & He & Hm).
  assert (e < -50 \/ (e = -50 /\ Z.pos m <= 6755399441055744)) as Hle.
  { rewrite FloatAxioms.leb_spec, Hb in Hb2.
    replace (Prim2SF 6) with (S754_finite false 6755399441055744 (-50)) in Hb2
      by (vm_compute; reflexivity).
    apply SFleb_finite_pos_inv in Hb2. exact Hb2. }
  destruct (Z.eq_dec e (-50)) as [He50|He50];
    [destruct (Z.eq_dec (Z.pos m) 6755399441055744) as [Hm6|Hm6]|].
  - (* the base gap is 6.0 *)
    assert (b = 6%float) as ->.
    { apply Prim2SF_inj. rewrite Hb. subst e. injection Hm6 as ->.
      vm_compute. reflexivity. }
    rewrite H6. rewrite !FloatAxioms.leb_spec, Hlo, Hhi. split.
    + apply SFleb_finite_pos. lia.
    + apply SFleb_finite_pos. lia.
  - rewrite !FloatAxioms.leb_spec, mul_spec, Hb, Hk, Hlo, Hhi.
    unfold SF64mul. cbn [SFmul xorb].
    destruct (mul_three_bounds m e c Hm He Hc) as (r & e' & -> & H).
    pose proof (Z.div_mod (Z.pos m * 3) 2 ltac:(lia)) as D2.
    pose proof (Z.mod_pos_bound (Z.pos m * 3) 2 ltac:(lia)) as B2.
    pose proof (Z.div_mod (Z.pos m * 3) 4 ltac:(lia)) as D4.
    pose proof (Z.mod_pos_bound (Z.pos m * 3) 4 ltac:(lia)) as B4.
    change (2 ^ 52) with 4503599627370496 in *. change (2 ^ 53) with 9007199254740992 in *.
    split; apply SFleb_finite_pos; lia.
  - rewrite !FloatAxioms.leb_spec, mul_spec, Hb, Hk, Hlo, Hhi.
    unfold SF64mul. cbn [SFmul xorb].
    destruct (mul_three_bounds m e c Hm He Hc) as (r & e' & -> & H).
    pose proof (Z.div_mod (Z.pos m * 3) 2 ltac:(lia)) as D2.
    pose proof (Z.mod_pos_bound (Z.pos m * 3) 2 ltac:(lia)) as B2.
    pose proof (Z.div_mod (Z.pos m * 3) 4 ltac:(lia)) as D4.
    pose proof (Z.mod_pos_bound (Z.pos m * 3) 4 ltac:(lia)) as B4.
    change (2 ^ 52) with 4503599627370496 in *. change (2 ^ 53) with 9007199254740992 in *.
    split; apply SFleb_finite_pos; lia.
Qed.

(** Whatever the revenue and the margin, the low gap lies between 0.375
    and 4.5 and the high gap between 0.75 and 9.0: the ends of the base
    range times 0.75 and times 1.5, which rounding does not pass. *)
Theorem gap_ranges (revenue opm : float) :
  let gaps := snd (estimate_potential_frictionless revenue opm) in
  ((0.375 <=? low gaps)%float = true /\ (low gaps <=? 4.5)%float = true)
  /\ ((0.75 <=? high gaps)%float = true /\ (high gaps <=? 9.0)%float = true).
Proof.
  unfold estimate_potential_frictionless. cbn [snd low high].
  destruct (clamp_cases (opm * 0.30)) as ((Hlo & Hhi) & _).
  set (base := py_max 0.5 (py_min 6 (opm * 0.30))) in *.
  split.
  - apply (scaled_gap_range base 0.75 0.375 4.5 (-53)); try assumption;
      try lia; vm_compute; reflexivity.
  - apply (scaled_gap_range base 1.5 0.75 9.0 (-52)); try assumption;
      try lia; vm_compute; reflexivity.
Qed.

(** ** Requests run on the example table *)

Section Runs.
Context {B : Builtins}.

(** Evaluate the left-hand side of an equation in a hypothesis. *)
Ltac compute_lhs H :=
  match type of H with
  | ?a = _ =>
      let v := eval vm_compute in a in
      replace a with v in H by (vm_compute; reflexivity)
  end.

Lemma float_neq (x y : float) : Prim2SF x <> Prim2SF y -> x <> y.
Proof. congruence. Qed.

(** C1, at an input on which the code raises: with a matching row, the
    revenue [1e999], which JSON decoding reads as infinity, passes
    [to_num], and [round] then raises [OverflowError] out of [berakna]. *)
Theorem berakna_raises_on_infinite_revenue :
  fst (berakna (example_payload (PFloat infinity)) example_store)
  = Raise (OverflowError "cannot convert float infinity to integer").
Proof. vm_compute. reflexivity. Qed.

(** C4, at an input on which the code goes on to the lookup with a
    revenue that is not finite: infinity passes validation and the
    request is answered by the lookup (here, that no row matches). *)
Theorem infinite_revenue_passes_validation :
  revenue_of (example_payload (PFloat infinity)) = Some infinity
  /\ is_finite infinity = false
  /\ fst (berakna (example_payload (PFloat infinity)) {| DF := []; temps := [] |})
     = Return (Error (no_benchmark "2024" "432" "5-9")).
Proof. repeat split; vm_compute; reflexivity. Qed.

(** C2, amended: on a table of that one row, whatever its two optional
    columns hold, a request for it with revenue 5000000 that succeeds has
    base gap 3.0 and returns [gap_low_pp] 2.2, [gap_high_pp] 4.5,
    [potential_low_kr] 112500, [potential_high_kr] 225000 and
    [median_ebit_kr] 500000. *)
Theorem end_to_end_example (antal staff_per : float) (st : store) (r : result) :
  DF st = [example_row_with antal staff_per] ->
  fst (berakna (example_payload (PInt 5000000)) st) = Return (Success r) ->
  mid (snd (estimate_potential_frictionless 5000000 10.0)) = 3.0%float
  /\ gap_low_pp r = 2.2%float /\ gap_high_pp r = 4.5%float
  /\ potential_low_kr r = 112500 /\ potential_high_kr r = 225000
  /\ median_ebit_kr r = 500000.
Proof.
  intros HDF H.
  rewrite (berakna_lookup _ st 5000000%float) in H;
    [|vm_compute; reflexivity
     |apply String.eqb_neq; vm_compute; reflexivity
     |apply String.eqb_neq; vm_compute; reflexivity].
  cbn [fst] in H.
  replace (sub_of (example_payload (PInt 5000000)) (DF st))
    with [example_row_with antal staff_per] in H
    by (rewrite HDF; vm_compute; reflexivity).
  cbv zeta in H.
  replace (to_num (PFloat (median (map col_rorelsemarginal_pct
             [example_row_with antal staff_per])))) with (Some 10.0%float) in H
    by (vm_compute; reflexivity).
  replace (to_num (PFloat (median (map col_nettomarginal_pct
             [example_row_with antal staff_per])))) with (Some 5.0%float) in H
    by (vm_compute; reflexivity).
  replace (to_num (PFloat (median (map col_personalkostnad_netto_pct
             [example_row_with antal staff_per])))) with (Some 20.0%float) in H
    by (vm_compute; reflexivity).
  apply report_Success in H as (_ & _ & (He & _) & (Hgl & Hgh) & (Hpl & _ & Hph)).
  split; [vm_compute; reflexivity|].
  rewrite Hgl, Hgh.
  split; [vm_compute; reflexivity|]. split; [vm_compute; reflexivity|].
  compute_lhs He. compute_lhs Hpl. compute_lhs Hph.
  repeat split; congruence.
Qed.

End Runs.

Section Instances.
Local Existing Instance Ref.builtins.

(** C2 fails as stated: on the one-row table the request returns
    [gap_low_pp] 2.2, not 2.3, because [round(2.25, 1)] rounds the tie to
    the even digit. *)
Lemma end_to_end_gap_low_is_not_2_3 :
  exists r,
    fst (berakna (example_payload (PInt 5000000)) example_store) = Return (Success r)
    /\ gap_low_pp r = 2.2%float /\ gap_low_pp r <> 2.3%float.
Proof.
  exists example_result. split; [exact end_to_end_result|].
  split; [reflexivity|]. apply float_neq. vm_compute. discriminate.
Qed.

Lemma end_to_end_example_witness :
  mid (snd (estimate_potential_frictionless 5000000 10.0)) = 3.0%float
  /\ gap_low_pp example_result = 2.2%float /\ gap_high_pp example_result = 4.5%float
  /\ potential_low_kr example_result = 112500
  /\ potential_high_kr example_result = 225000
  /\ median_ebit_kr example_result = 500000.
Proof.
  apply (end_to_end_example nan nan example_store example_result).
  - reflexivity.
  - vm_compute. reflexivity.
Defined.

(** C3 fails as stated: in the table loaded from a raw export whose only
    row carries the size class 001, the query for "0" selects that row
    and the query for "001" selects none, so the first is answered and the
    second is told that there is no benchmark. *)
Lemma size_class_query_not_normalized :
  exists st r0,
    startup example_files = Return st
    /\ sub_of (example_query "0") (DF st) = [r0]
    /\ sub_of (example_query "001") (DF st) = []
    /\ (exists r, fst (berakna (example_query "0") st) = Return (Success r))
    /\ fst (berakna (example_query "001") st)
       = Return (Error (no_benchmark "2024" "432" "001")).
Proof.
  eexists _, _. split; [vm_compute; reflexivity|].
  split; [vm_compute; reflexivity|]. split; [vm_compute; reflexivity|].
  split; [eexists; vm_compute; reflexivity | vm_compute; reflexivity].
Qed.

Lemma size_class_normalized_at_load_witness :
  load_benchmark example_files = Return example_table
  /\ select example_table "2024" "432" "001" = [].
Proof.
  assert (load_benchmark example_files = Return example_table) as H
    by (vm_compute; reflexivity).
  split; [exact H|].
  apply (size_class_normalized_at_load example_files example_table H).
Defined.

(** An incomplete segment: two rows match, their net margins are null. *)
Lemma medians_and_incomplete_witness :
  fst (berakna (example_payload (PInt 5000000)) incomplete_store)
  = Return (Error incomplete).
Proof.
  assert (revenue_of (example_payload (PInt 5000000)) = Some 5000000%float) as H1
    by (vm_compute; reflexivity).
  assert (sni_3_of (example_payload (PInt 5000000)) <> "") as H2
    by (apply String.eqb_neq; vm_compute; reflexivity).
  assert (size_class_of (example_payload (PInt 5000000)) <> "") as H3
    by (apply String.eqb_neq; vm_compute; reflexivity).
  assert (sub_of (example_payload (PInt 5000000)) (DF incomplete_store) <> []) as H4
    by (vm_compute; discriminate).
  apply (proj2 (proj1 (proj2
           (medians_and_incomplete (example_payload (PInt 5000000)) incomplete_store
              5000000%float H1 H2 H3 H4)))).
  right. left. vm_compute. reflexivity.
Defined.

(** The revenue of the end-to-end example, sent as the string "5000000". *)
Lemma revenue_string_as_number_witness :
  revenue_of (example_payload (PStr "5000000")) = Some 5000000%float
  /\ fst (berakna (example_payload (PStr "5000000")) example_store)
     <> Return (Error missing_fields)
  /\ fst (berakna (example_payload (PStr "5000000")) example_store)
     = Return (Success example_result)
  /\ py_round (5000000
               * (median (map col_rorelsemarginal_pct
                              (sub_of (example_payload (PStr "5000000"))
                                      (DF example_store))) / 100.0))
     = Return (median_ebit_kr example_result).
Proof.
  assert (example_payload (PStr "5000000") !! "revenue" = Some (PStr "5000000")) as H1
    by (vm_compute; reflexivity).
  assert (float_of_str "5000000" = Some 5000000%float) as H2
    by (vm_compute; reflexivity).
  assert (is_finite 5000000 = true) as H3 by (vm_compute; reflexivity).
  assert (sni_3_of (example_payload (PStr "5000000")) <> "") as H4
    by (apply String.eqb_neq; vm_compute; reflexivity).
  assert (size_class_of (example_payload (PStr "5000000")) <> "") as H5
    by (apply String.eqb_neq; vm_compute; reflexivity).
  assert (fst (berakna (example_payload (PStr "5000000")) example_store)
          = Return (Success example_result)) as H6
    by (vm_compute; reflexivity).
  pose proof (revenue_string_as_number (example_payload (PStr "5000000")) example_store
                "5000000" 5000000%float H1 H2 H3) as (Hr & _ & Hv & Hs).
  split; [exact Hr|]. split; [exact (proj1 (Hv H4 H5))|]. split; [exact H6|].
  exact (proj1 (Hs example_result H6)).
Defined.

Lemma no_matching_rows_witness :
  fst (berakna (example_query "001") {| DF := example_table; temps := [] |})
  = Return (Error ("No benchmark for year=" ++ year_of (example_query "001")
                   ++ ", sni_3=" ++ sni_3_of (example_query "001")
                   ++ ", size_class=" ++ size_class_of (example_query "001"))).
Proof.
  apply (no_matching_rows (example_query "001") {| DF := example_table; temps := [] |}
           5000000%float).
  - vm_compute. reflexivity.
  - apply String.eqb_neq. vm_compute. reflexivity.
  - apply String.eqb_neq. vm_compute. reflexivity.
  - vm_compute. reflexivity.
Defined.

Lemma to_num_not_nan_witness : is_nan 5000000%float = false.
Proof. apply (to_num_not_nan (PInt 5000000)). vm_compute. reflexivity. Defined.

Lemma success_fields_witness :
  py_round (5000000 * (median (map col_rorelsemarginal_pct
                                   (sub_of (example_payload (PInt 5000000))
                                           (DF example_store))) / 100.0))
  = Return (median_ebit_kr example_result).
Proof.
  assert (revenue_of (example_payload (PInt 5000000)) = Some 5000000%float) as H1
    by (vm_compute; reflexivity).
  assert (fst (berakna (example_payload (PInt 5000000)) example_store)
          = Return (Success example_result)) as H2
    by (vm_compute; reflexivity).
  exact (proj1 (proj1 (proj2
           (success_fields (example_payload (PInt 5000000)) example_store
              5000000%float example_result H1 H2)))).
Defined.

Lemma load_keeps_rows_witness : length example_table = length (rows example_frame).
Proof. apply (load_keeps_rows example_frame example_table). vm_compute. reflexivity. Defined.

Lemma fallbacks_keep_targets_witness :
  harmonize {| columns := required; rows := [] |} = {| columns := required; rows := [] |}.
Proof.
  apply (fallbacks_keep_targets {| columns := required; rows := [] |}).
  - right. right. left. reflexivity.
  - left. reflexivity.
Defined.

(** Rows of another segment around the table of the example. *)
Lemma other_segments_do_not_matter_witness :
  fst (berakna (example_payload (PInt 5000000))
         {| DF := [other_row] ++ DF example_store ++ [other_row; other_row]; temps := [] |})
  = fst (berakna (example_payload (PInt 5000000))
           {| DF := DF example_store; temps := [] |}).
Proof.
  apply (other_segments_do_not_matter (example_payload (PInt 5000000))
           [other_row] (DF example_store) [other_row; other_row] [] []);
    vm_compute; reflexivity.
Defined.

Lemma year_defaults_to_2024_witness :
  berakna loose_payload example_store
  = berakna (<["year" := PStr "2024"]> loose_payload) example_store.
Proof.
  apply (year_defaults_to_2024 loose_payload example_store).
  vm_compute. reflexivity.
Defined.

(** The industry code sent as the number 432. *)
Lemma key_fields_read_as_text_witness :
  berakna loose_payload example_store
  = berakna (<["sni_3" := PStr (py_str (PInt 432))]> loose_payload) example_store.
Proof.
  assert (loose_payload !! "sni_3" = Some (PInt 432)) as H by (vm_compute; reflexivity).
  exact (proj1 (key_fields_read_as_text loose_payload example_store "sni_3" (PInt 432)
                  (or_intror (or_introl eq_refl)) H)).
Defined.

Lemma surrounding_space_ignored_witness :
  berakna loose_payload example_store
  = berakna (<["size_class" := PStr (strip " 5-9 ")]> loose_payload) example_store.
Proof.
  apply (surrounding_space_ignored loose_payload example_store "size_class" " 5-9 ").
  - right. reflexivity.
  - vm_compute. reflexivity.
Defined.

(** The infinite revenue on the table of the example: a float that the
    response rounds is not finite. *)
Lemma berakna_raises_only_from_round_witness :
  (exists revenue y,
      revenue_of (example_payload (PFloat infinity)) = Some revenue
      /\ is_finite y = false
      /\ py_round y = Raise (OverflowError "cannot convert float infinity to integer"))
  /\ sub_of (example_payload (PFloat infinity)) (DF example_store) <> [].
Proof.
  assert (fst (berakna (example_payload (PFloat infinity)) example_store)
          = Raise (OverflowError "cannot convert float infinity to integer")) as H
    by (vm_compute; reflexivity).
  pose proof (berakna_raises_only_from_round _ _ _ H)
    as (_ & (revenue & y & Hr & _ & Hf & Hy) & _ & _ & Hsub & _).
  split; [|exact Hsub]. exists revenue, y. auto.
Defined.

Lemma single_match_reports_the_row_witness :
  fst (berakna (example_payload (PInt 5000000)) example_store)
  = report 5000000 None 10.0 5.0 20.0 None.
Proof.
  assert (revenue_of (example_payload (PInt 5000000)) = Some 5000000%float) as H1
    by (vm_compute; reflexivity).
  assert (sni_3_of (example_payload (PInt 5000000)) <> "") as H2
    by (apply String.eqb_neq; vm_compute; reflexivity).
  assert (size_class_of (example_payload (PInt 5000000)) <> "") as H3
    by (apply String.eqb_neq; vm_compute; reflexivity).
  assert (sub_of (example_payload (PInt 5000000)) (DF example_store)
          = [example_row_with nan nan]) as H4
    by (vm_compute; reflexivity).
  exact (single_match_reports_the_row (example_payload (PInt 5000000)) example_store
           5000000%float (example_row_with nan nan) H1 H2 H3 H4).
Defined.

Lemma odd_median_is_observed_witness :
  In (median [8.0; nan; 2.0; 5.0]%float) (dropna [8.0; nan; 2.0; 5.0]%float).
Proof.
  apply (odd_median_is_observed [8.0; nan; 2.0; 5.0]%float). vm_compute. reflexivity.
Defined.

(** A negative revenue. *)
Lemma nonpositive_revenue_zero_potential_witness :
  fst (estimate_potential_frictionless (-250000) 10.0)
  = {| low := 0; mid := 0; high := 0 |}.
Proof.
  assert ((-250000 <=? 0)%float = true) as H by (vm_compute; reflexivity).
  exact (proj1 (nonpositive_revenue_zero_potential (-250000) 10.0 H)).
Defined.

Lemma clean_file_loaded_as_is_witness :
  load_frame clean_frame = Return (normalize clean_frame).
Proof.
  apply (clean_file_loaded_as_is clean_frame).
  - intros c Hc. exact Hc.
  - intros c Hc. vm_compute in Hc.
    repeat (destruct Hc as [<-|Hc]; [vm_compute; reflexivity|]). destruct Hc.
  - apply (proj2 (NoDup_count_occ string_dec _)). intros x.
    unfold clean_frame, required. cbn [columns count_occ].
    repeat match goal with
           | |- context [string_dec ?a x] => destruct (string_dec a x) as [<-|?]
           end;
      vm_compute; try congruence; repeat constructor.
Defined.

Lemma code_beside_name_fails_witness :
  load_frame mixed_frame
  = Raise (TypeError "arg must be a list, tuple, 1-d array, or Series").
Proof.
  apply (code_beside_name_fails mixed_frame "0000032G" "rorelsemarginal_pct").
  - intros c Hc. apply in_or_app. left. exact Hc.
  - vm_compute. reflexivity.
  - apply in_or_app. right. left. reflexivity.
Defined.

Lemma raw_export_loaded_by_codes_witness :
  example_table
  = map (fun r =>
           let at_ := cell (columns example_frame) r in
           {| col_year := py_str (at_ "Tid");
              col_sni_3 := py_str (at_ "sni_3");
              col_size_class := replace {[ "001" := "0" ]} (py_str (at_ "Storleksklass"));
              col_antal_foretag := to_numeric (at_ "0000028K");
              col_rorelsemarginal_pct := to_numeric (at_ "0000032G");
              col_nettomarginal_pct := to_numeric (at_ "0000032H");
              col_personalkostnad_netto_pct := to_numeric (at_ "0000033Z");
              col_personalkostnad_per_anst_tkr := to_numeric (at_ "00000355") |})
        (rows example_frame).
Proof.
  assert (forall c, negb (existsb (String.eqb c) (columns example_frame)) = true ->
                    ~ In c (columns example_frame)) as Hn.
  { intros c Hc Hin. apply negb_true_iff in Hc.
    assert (existsb (String.eqb c) (columns example_frame) = true) as Ht
      by (apply existsb_exists; exists c; split; [exact Hin | apply String.eqb_refl]).
    congruence. }
  apply (raw_export_loaded_by_codes example_frame example_table).
  - repeat constructor.
  - apply Hn. vm_compute. reflexivity.
  - apply Hn. vm_compute. reflexivity.
  - intros c Hc. apply Hn. vm_compute in Hc.
    repeat (destruct Hc as [<-|Hc]; [vm_compute; reflexivity|]). destruct Hc.
  - vm_compute. reflexivity.
Defined.

Lemma query_001_finds_nothing_witness :
  fst (berakna (example_query "001") {| DF := example_table; temps := [] |})
  = Return (Error ("No benchmark for year=" ++ year_of (example_query "001")
                   ++ ", sni_3=" ++ sni_3_of (example_query "001")
                   ++ ", size_class=001")).
Proof.
  apply (query_001_finds_nothing example_files {| DF := example_table; temps := [] |}
           (example_query "001") 5000000%float).
  - vm_compute. reflexivity.
  - vm_compute. reflexivity.
  - apply String.eqb_neq. vm_compute. reflexivity.
  - vm_compute. reflexivity.
Defined.

End Instances.
